(** * The UIDAI dashboard script (app.py): data loader, region filter and
      policy simulator

    The program is one Python script over a pandas DataFrame.  The model keeps
    its shape:

    - Python floats are IEEE binary64 numbers: Rocq's primitive [float];
    - a DataFrame is its list of column names and its list of rows, a row
      being a finite map from column names to cells;
    - a Python exception or a call of [st.stop()] ends the script: the
      [outcome] monad;
    - a Python string is the bytes of its UTF-8 encoding; the library
      functions whose result depends on the Unicode character database, on
      the version of Python or on the version of Streamlit are taken as they
      are, in a record [library];
    - the widgets' values (selected region, simulation mode, sliders) are
      inputs of the functions that read them. *)

From Stdlib Require Import ZArith Floats Ascii String.
From stdpp Require Import gmap strings list fin_maps pretty sorting.

#[local] Set Warnings "-inexact-float".
#[local] Open Scope string_scope.

(** ** Python floats *)

Module PyFloat.

(** [float(n)] for a Python int: the nearest binary64 number, ties to even. *)
Definition float_of_Z (n : Z) : float :=
  SF2Prim (binary_normalize prec emax n 0 false).

(** Python's builtin [min(a, b)]: the first argument unless the second is
    strictly smaller. *)
Definition py_min (a b : float) : float :=
  if (b <? a)%float then b else a.

(** Python's builtin [max(a, b)]: the first argument unless the second is
    strictly greater. *)
Definition py_max (a b : float) : float :=
  if (a <? b)%float then b else a.

(** [x <= y] and [x > y] as Python evaluates them on floats. *)
Definition le (x y : float) : Prop := (x <=? y)%float = true.
Definition gtb (x y : float) : bool := (y <? x)%float.

(** A float that is neither zero, nor infinite, nor NaN. *)
Definition finite_nonzero (x : float) : bool :=
  match Prim2SF x with
  | S754_finite _ _ _ => true
  | _ => false
  end.

End PyFloat.

(** ** Python strings

    A Python string is kept as the bytes of its UTF-8 encoding: two strings
    are equal exactly when their bytes are, and Python's order on strings, by
    code point, is the order of the bytes.

    The string methods the script calls on region names, [str.strip] and
    [str.title], look characters up in the Unicode character database; the
    script's model takes them from the [library] record below.  This module
    writes out what they compute on ASCII text, that is on strings whose
    characters all lie below 128; nothing in it speaks of other strings. *)

Module AsciiText.

Definition code (c : ascii) : N := N_of_ascii c.

(** A string of ASCII characters only. *)
Fixpoint is_ascii (s : string) : bool :=
  match s with
  | EmptyString => true
  | String c s' => (code c <? 128)%N && is_ascii s'
  end.

(** [str.isspace] on ASCII: tab, line feed, vertical tab, form feed,
    carriage return, the four separators 28..31 and the space. *)
Definition is_space (c : ascii) : bool :=
  let n := code c in
  ((9 <=? n) && (n <=? 13) || (28 <=? n) && (n <=? 32))%N.

Definition is_lower (c : ascii) : bool :=
  let n := code c in ((97 <=? n) && (n <=? 122))%N.

Definition is_upper (c : ascii) : bool :=
  let n := code c in ((65 <=? n) && (n <=? 90))%N.

Definition to_upper (c : ascii) : ascii :=
  if is_lower c then ascii_of_N (code c - 32) else c.

Definition to_lower (c : ascii) : ascii :=
  if is_upper c then ascii_of_N (code c + 32) else c.

Fixpoint lstrip (s : string) : string :=
  match s with
  | EmptyString => EmptyString
  | String c s' => if is_space c then lstrip s' else s
  end.

Fixpoint rstrip (s : string) : string :=
  match s with
  | EmptyString => EmptyString
  | String c s' =>
      match rstrip s' with
      | EmptyString => if is_space c then EmptyString else String c EmptyString
      | r => String c r
      end
  end.

(** [str.strip()] on ASCII text: white space removed at both ends. *)
Definition strip (s : string) : string := rstrip (lstrip s).

(** [str.title()] on ASCII text: a letter is put in upper case when the
    character before it is not a letter, in lower case when it is. *)
Fixpoint title_from (previous_is_cased : bool) (s : string) : string :=
  match s with
  | EmptyString => EmptyString
  | String c s' =>
      if is_lower c then
        String (if previous_is_cased then c else to_upper c) (title_from true s')
      else if is_upper c then
        String (if previous_is_cased then to_lower c else c) (title_from true s')
      else String c (title_from false s')
  end.

Definition title (s : string) : string := title_from false s.

(** [str.lower()] on ASCII text. *)
Fixpoint lower (s : string) : string :=
  match s with
  | EmptyString => EmptyString
  | String c s' => String (to_lower c) (lower s')
  end.

(** Whether the first character is white space. *)
Definition starts_with_space (s : string) : bool :=
  match s with
  | EmptyString => false
  | String c _ => is_space c
  end.

(** A string with no white space at either end. *)
Definition stripped (s : string) : Prop := lstrip s = s ∧ rstrip s = s.

End AsciiText.


(** ** DataFrames *)

(** A cell of a frame read by [pd.read_csv]: a float (a missing value is the
    float NaN), an integer or a string. *)
Inductive cell := CFloat (x : float) | CInt (n : Z) | CStr (s : string).

Abbreviation Row := (gmap string cell).

Record DataFrame := mkDF { columns : list string; rows : list Row }.

(** What ends a run of the script before its last line: an uncaught Python
    exception, or [st.stop()] after a message shown to the user. *)
Inductive exn :=
| KeyError (column : string)
| TypeError
| ValueError
| IndexError
| OverflowError
| StreamlitAPIException.
Inductive level := Error | Warning.

Inductive outcome (A : Type) : Type :=
| Ok (a : A)
| Raise (e : exn)
| Halt (lvl : level) (message : string).
Arguments Ok {A} a.
Arguments Raise {A} e.
Arguments Halt {A} lvl message.

#[export] Instance outcome_ret : MRet outcome := @Ok.
#[export] Instance outcome_bind : MBind outcome := λ A B f c,
  match c with
  | Ok a => f a
  | Raise e => Raise e
  | Halt l m => Halt l m
  end.

(** A function applied to every element of a column, left to right; the
    first exception ends it. *)
Fixpoint traverse {A B} (f : A → outcome B) (l : list A) : outcome (list B) :=
  match l with
  | [] => Ok []
  | x :: l' => y ← f x; ys ← traverse f l'; Ok (y :: ys)
  end.

Module Frame.

(** The value of column [c] in row [r]; a value absent from the row is
    missing, that is NaN. *)
Definition cell_at (r : Row) (c : string) : cell :=
  default (CFloat nan) (r !! c).

(** [len(df)], [df.shape[0]]. *)
Definition nrows (df : DataFrame) : nat := length (rows df).

(** [df[c]]: the column as a list of cells, [KeyError] when the frame has
    no such column. *)
Definition getcol (c : string) (df : DataFrame) : outcome (list cell) :=
  if decide (c ∈ columns df) then Ok (map (λ r, cell_at r c) (rows df))
  else Raise (KeyError c).

(** [df[c] = values], for values computed from the same frame: an existing
    column is overwritten in place, a new one is added last. *)
Definition setcol (c : string) (values : list cell) (df : DataFrame) : DataFrame :=
  {| columns := if decide (c ∈ columns df) then columns df else columns df ++ [c];
     rows := zip_with (λ r v, <[c := v]> r) (rows df) values |}.

(** [df[c] = v] for a scalar [v]. *)
Definition setcol_scalar (c : string) (v : cell) (df : DataFrame) : DataFrame :=
  setcol c (replicate (nrows df) v) df.

(** [l[mask]]: the elements at which the boolean mask is true. *)
Fixpoint mask_select {A} (mask : list bool) (l : list A) : list A :=
  match mask, l with
  | b :: mask', x :: l' =>
      if b then x :: mask_select mask' l' else mask_select mask' l'
  | _, _ => []
  end.

(** [df[mask]] for a boolean mask computed from a column of [df]. *)
Definition select (mask : list bool) (df : DataFrame) : DataFrame :=
  {| columns := columns df; rows := mask_select mask (rows df) |}.

(** [df[cols]] for a list of columns that are all present. *)
Definition project (cols : list string) (df : DataFrame) : DataFrame :=
  {| columns := cols;
     rows := map (λ r : Row, filter (λ kv, kv.1 ∈ cols) r) (rows df) |}.

(** [[c for c in cols if c in df.columns]] *)
Definition valid_columns (cols : list string) (df : DataFrame) : list string :=
  List.filter (λ c, bool_decide (c ∈ columns df)) cols.

(** [column == s] and [column != s] for a string [s], element by element:
    a cell that is not a string differs from every string. *)
Definition cell_eqb_str (s : string) (c : cell) : bool :=
  match c with
  | CStr t => bool_decide (t = s)
  | _ => false
  end.

(** The float a numeric cell stands for in arithmetic with a float;
    Python cannot multiply or compare a string with a float. *)
Definition cell_float (c : cell) : outcome float :=
  match c with
  | CFloat x => Ok x
  | CInt n => Ok (PyFloat.float_of_Z n)
  | CStr _ => Raise TypeError
  end.

(** [column * m] for a float [m]. *)
Definition cell_mul (m : float) (c : cell) : outcome float :=
  x ← cell_float c; Ok (x * m)%float.

(** [column > t] for a float [t]. *)
Definition cell_gt (t : float) (c : cell) : outcome bool :=
  x ← cell_float c; Ok (PyFloat.gtb x t).

(** [Series.clip(lower=lo)] on a float column: pandas keeps every value
    that is missing ([isna]) or at least [lo] ([x >= lo]) and puts [lo] in
    place of the others. *)
Definition clip_lower (lo x : float) : float :=
  if is_nan x || (lo <=? x)%float then x else lo.

End Frame.
Import Frame.

(** ** The script *)

(** *** Loading (lines 30-49) *)

(** The typo-correction table of [load_data]. *)
Definition state_corrections : gmap string string :=
  list_to_map
    [ ("Westbengal", "West Bengal"); ("West Bangal", "West Bengal");
      ("Westbenga", "West Bengal");
      ("Telengana", "Telangana"); ("Orissa", "Odisha");
      ("Chattisgarh", "Chhattisgarh");
      ("Jammu And Kashmir", "Jammu & Kashmir");
      ("Daman And Diu", "Daman & Diu");
      ("Dadra And Nagar Haveli", "Dadra & Nagar Haveli") ].

(** [Series.replace(table)] on one value: a value that is a key of the table
    is replaced by what the table gives for it, any other value is kept. *)
Definition replace (table : gmap string string) (c : cell) : cell :=
  match c with
  | CStr s => CStr (default s (table !! s))
  | _ => c
  end.

(** *** Library code

    What the script calls in the libraries and this file does not write
    out: the result depends on the Unicode character database ([str.strip],
    [str.title]), on the version of Python ([str] of a float, [int] of a
    string) or on the version of Streamlit ([st.progress]). *)
Record library := mkLibrary {
  (* str(x) for a float x; astype(str) applies it to a region cell that is
     a float (pandas 2: every cell goes through str) *)
  float_str : float → string;
  (* s.strip() and s.title() *)
  str_strip : string → string;
  str_title : string → string;
  (* int(s) for a string s: the integer it denotes, or nothing when Python
     raises ValueError *)
  int_str : string → option Z;
  (* whether st.progress(v) accepts the float v; it raises
     StreamlitAPIException when it does not *)
  progress_accepts : float → bool }.

(** On ASCII text [str.strip] and [str.title] are the functions of
    [AsciiText]. *)
Definition ascii_text (lib : library) : Prop :=
  ∀ s, AsciiText.is_ascii s = true →
       str_strip lib s = AsciiText.strip s ∧ str_title lib s = AsciiText.title s.

(** [st.progress] accepts every float from 0.0 to 1.0. *)
Definition progress_in_range (lib : library) : Prop :=
  ∀ v : float, (0 <=? v)%float = true → (v <=? 1)%float = true →
               progress_accepts lib v = true.

(** What lines 36 and 43 do to one region name. *)
Definition clean_state (lib : library) (s : string) : string :=
  let t := str_title lib (str_strip lib s) in default t (state_corrections !! t).

Definition file_not_found_message : string :=
  "Data file not found! Run the Notebook Export step first.".

(** [Series.astype(str)] on one cell. *)
Definition astype_str (lib : library) (c : cell) : string :=
  match c with
  | CStr s => s
  | CInt n => pretty n
  | CFloat x => float_str lib x
  end.

(** [load_data()]; [file] is what [pd.read_csv] finds: the parsed frame,
    or nothing when the file does not exist. *)
Definition load_data (lib : library) (file : option DataFrame) : outcome DataFrame :=
  match file with
  | None => Halt Error file_not_found_message
  | Some df =>
      state ← getcol "state" df;
      let df :=
        setcol "state"
          (map (λ c, CStr (str_title lib (str_strip lib (astype_str lib c)))) state) df in
      state ← getcol "state" df;
      Ok (setcol "state" (map (replace state_corrections) state) df)
  end.

(** *** Region filter (lines 56-62)

    [selected_state] is the option picked in the select box: "All India" or
    one of the region names of the loaded frame. *)

Definition all_india : string := "All India".

Definition region_view (df : DataFrame) (selected_state : string) : outcome DataFrame :=
  if bool_decide (selected_state ≠ all_india) then
    state ← getcol "state" df;
    Ok (select (map (cell_eqb_str selected_state) state) df)
  else Ok df.

(** *** Policy simulator (lines 68-100) *)

(** The radio button's choice with the sliders shown for it. *)
Inductive sim_mode :=
| StressTest (load_multiplier : float)
| DeploySolutions (new_kits staff_boost : Z).

(** The message the simulator leaves in the sidebar. *)
Inductive sidebar_msg :=
| Alert (collapsed_count : nat) (load_multiplier : float)
| InfoIncreaseLoad
| Success (impact : float)
| InfoDeploy.

(** The count the sidebar reports, when it reports one. *)
Definition reported_collapsed (msg : sidebar_msg) : option nat :=
  match msg with
  | Alert n _ => Some n
  | _ => None
  end.

Definition collapse_threshold : float := 5.0%float.
Definition impact_cap : float := 0.90%float.
Definition stress_floor : float := 0.1%float.

(** Line 93. *)
Definition impact (new_kits staff_boost : Z) : float :=
  PyFloat.py_min
    (PyFloat.float_of_Z new_kits * 0.02 + PyFloat.float_of_Z staff_boost * 0.01)%float
    impact_cap.

Definition simulate (mode : sim_mode) (dashboard_df : DataFrame)
  : outcome (DataFrame * sidebar_msg) :=
  match mode with
  | StressTest load_multiplier =>
      if PyFloat.gtb load_multiplier 1.0 then
        assi ← getcol "assi" dashboard_df;
        scaled ← traverse (cell_mul load_multiplier) assi;
        let dashboard_df := setcol "assi" (map CFloat scaled) dashboard_df in
        assi ← getcol "assi" dashboard_df;
        mask ← traverse (cell_gt collapse_threshold) assi;
        let collapsed_count := nrows (select mask dashboard_df) in
        Ok (dashboard_df, Alert collapsed_count load_multiplier)
      else Ok (dashboard_df, InfoIncreaseLoad)
  | DeploySolutions new_kits staff_boost =>
      if (0 <? new_kits)%Z || (0 <? staff_boost)%Z then
        let impact := impact new_kits staff_boost in
        assi ← getcol "assi" dashboard_df;
        scaled ← traverse (cell_mul (1 - impact)) assi;
        let clipped := map (clip_lower stress_floor) scaled in
        Ok (setcol "assi" (map CFloat clipped) dashboard_df, Success impact)
      else Ok (dashboard_df, InfoDeploy)
  end.

(** *** The four tabs (lines 107-216)

    pandas's reductions ([median], [sum]) and its sort are library code: a
    metric is kept as the column it reduces and a sorted table as the frame
    with the key it is sorted on.  Formatting and chart styling are not
    modelled. *)

Record metrics := mkMetrics {
  critical_count : nat;
  median_stress_of : list cell;
  mbu_total_of : list cell;
  security_alerts : nat }.

(** Lines 113-116. *)
Definition tab1_metrics (dashboard_df : DataFrame) : outcome metrics :=
  priority ← getcol "Priority" dashboard_df;
  let critical := select (map (cell_eqb_str "CRITICAL") priority) dashboard_df in
  assi ← getcol "assi" dashboard_df;
  mbu ← getcol "future_mbu_demand" dashboard_df;
  status ← getcol "security_status" dashboard_df;
  let alerts := select (map (λ c, negb (cell_eqb_str "Normal" c)) status) dashboard_df in
  Ok (mkMetrics (nrows critical) assi mbu (nrows alerts)).

(** A plotly chart reads the columns it is given by name and raises
    [ValueError] for a name that is not a column. *)
Fixpoint px_columns (names : list string) (df : DataFrame) : outcome unit :=
  match names with
  | [] => Ok ()
  | c :: names' =>
      if decide (c ∈ columns df) then px_columns names' df else Raise ValueError
  end.

(** Lines 128-140: the scatter chart, then the pie chart over
    [district_type], a column the script adds to its frame when it is
    missing. *)
Definition tab1_charts (dashboard_df : DataFrame) : outcome DataFrame :=
  _ ← px_columns
        ["assi_acceleration"; "age_18_greater"; "security_status"; "assi"; "district"]
        dashboard_df;
  let dashboard_df :=
    if decide ("district_type" ∈ columns dashboard_df) then dashboard_df
    else setcol_scalar "district_type" (CStr "Unknown") dashboard_df in
  _ ← px_columns ["district_type"] dashboard_df;
  Ok dashboard_df.

(** A frame with the order pandas is asked to put its rows in. *)
Record table := mkTable {
  body : DataFrame;
  sorted_by : option (string * bool);   (* column, ascending *)
  head : option nat }.

(** [df.sort_values(c, ascending=asc)]: the column must exist. *)
Definition sort_values (c : string) (asc : bool) (df : DataFrame) : outcome table :=
  _ ← getcol c df; Ok (mkTable df (Some (c, asc)) None).

(** [df.empty] *)
Definition empty (df : DataFrame) : bool :=
  bool_decide (columns df = []) || bool_decide (rows df = []).

(** Lines 146-152: the table of the tab, or nothing when there is no
    anomaly. *)
Definition tab2_sentinel (dashboard_df : DataFrame) : outcome (option table) :=
  status ← getcol "security_status" dashboard_df;
  let alerts := select (map (λ c, negb (cell_eqb_str "Normal" c)) status) dashboard_df in
  sentinel_data ← sort_values "assi" false alerts;
  if negb (empty (body sentinel_data)) then
    let cols := ["state"; "district"; "assi"; "age_18_greater"; "District_Playbook"] in
    let valid_cols := valid_columns cols (body sentinel_data) in
    Ok (Some (mkTable (project valid_cols (body sentinel_data))
                (sorted_by sentinel_data) (head sentinel_data)))
  else Ok None.

Definition no_district_message : string := "No districts found.".

(** [d_data[c]] and [d_data.get(c, default)] for a row of [df]. *)
Definition row_item (df : DataFrame) (r : Row) (c : string) : outcome cell :=
  if decide (c ∈ columns df) then Ok (cell_at r c) else Raise (KeyError c).
Definition row_get (df : DataFrame) (r : Row) (c : string) (dflt : cell) : cell :=
  if decide (c ∈ columns df) then cell_at r c else dflt.

(** Lines 170-172: the banner of the district card is [st.error] for a
    critical district, [st.warning] for a high one and [st.success]
    otherwise. *)
Inductive banner := ErrorBanner | WarningBanner | SuccessBanner.

Definition priority_banner (priority : cell) : banner :=
  if cell_eqb_str "CRITICAL" priority then ErrorBanner
  else if cell_eqb_str "High" priority then WarningBanner
  else SuccessBanner.

(** [score < k] for a cell of the frame and a small integer constant [k]: an
    integer cell is compared exactly, a float cell with [float(k)], and a
    string cannot be compared with a number. *)
Definition cell_lt_int (score : cell) (k : Z) : outcome bool :=
  match score with
  | CFloat x => Ok (x <? PyFloat.float_of_Z k)%float
  | CInt n => Ok (n <? k)%Z
  | CStr _ => Raise TypeError
  end.

(** Lines 176-178: the colour of the preparedness score on the card. *)
Definition card_color (score : cell) : outcome string :=
  below_40 ← cell_lt_int score 40;
  if (below_40 : bool) then Ok "#FF4B4B"
  else
    below_70 ← cell_lt_int score 70;
    if (below_70 : bool) then Ok "#FFA500" else Ok "#00CC96".

(** Lines 195-198. *)
Definition get_color (score : cell) : outcome string :=
  below_40 ← cell_lt_int score 40;
  if (below_40 : bool) then Ok "#8b0000"
  else
    below_50 ← cell_lt_int score 50;
    if (below_50 : bool) then Ok "#d63031" else Ok "#fdcb6e".

(** Line 175 with lines 176-178: the score the card shows, 0 when the frame
    has no [Preparedness_Index] column, and its colour. *)
Definition card_score_color (df : DataFrame) (d_data : Row) : outcome (cell * string) :=
  let score := row_get df d_data "Preparedness_Index" (CInt 0) in
  color ← card_color score; Ok (score, color).

(** Line 185: the value handed to [st.progress]. *)
Definition progress_value (stress : cell) : outcome float :=
  x ← cell_float stress; Ok (PyFloat.py_min (x / 5.0) 1.0).

(** [int(x)] for a cell: an integer is itself, a float is truncated
    towards zero ([ValueError] for NaN, [OverflowError] for an infinity), and
    a string is read by Python's [int]. *)
Definition float_trunc (x : float) : outcome Z :=
  match Prim2SF x with
  | S754_nan => Raise ValueError
  | S754_infinity _ => Raise OverflowError
  | S754_zero _ => Ok 0%Z
  | S754_finite s m e =>
      let magnitude :=
        match e with
        | Z0 => Z.pos m
        | Z.pos p => Z.shiftl (Z.pos m) (Z.pos p)
        | Z.neg p => Z.shiftr (Z.pos m) (Z.pos p)
        end in
      Ok (if s then - magnitude else magnitude)%Z
  end.

Definition py_int (lib : library) (c : cell) : outcome Z :=
  match c with
  | CInt n => Ok n
  | CFloat x => float_trunc x
  | CStr s =>
      match int_str lib s with
      | Some n => Ok n
      | None => Raise ValueError
      end
  end.

(** [st.progress(v)] for a float [v]. *)
Definition st_progress (lib : library) (v : float) : outcome unit :=
  if progress_accepts lib v then Ok () else Raise StreamlitAPIException.

(** Whether a cell is text. *)
Definition is_text (c : cell) : bool :=
  match c with
  | CStr _ => true
  | _ => false
  end.

(** [sorted(values)] for the distinct values of a column, as far as it can
    fail: Python orders text among text and numbers among numbers, and raises
    [TypeError] when it has to compare a text with a number. *)
Definition sortable (values : list cell) : outcome unit :=
  if existsb is_text values && existsb (λ c, negb (is_text c)) values
  then Raise TypeError else Ok ().

Record district_card := mkCard {
  card_district : cell;
  card_state : cell;
  card_priority : cell;
  card_banner : banner;
  card_score : cell;
  card_score_style : string;
  card_mbu : Z;
  card_order : cell;
  card_progress : float }.

(** Lines 168-185, the block [with c_info:]: the card of the row
    [d_data]. *)
Definition tab3_card (lib : library) (dashboard_df : DataFrame) (d_data : Row)
  : outcome district_card :=
  name ← row_item dashboard_df d_data "district";
  state ← row_item dashboard_df d_data "state";
  let priority := row_get dashboard_df d_data "Priority" (CStr "Normal") in
  let banner := priority_banner priority in
  '(score, color) ← card_score_color dashboard_df d_data;
  mbu ← row_item dashboard_df d_data "future_mbu_demand";
  mbu ← py_int lib mbu;
  let order :=
    row_get dashboard_df d_data "District_Playbook" (CStr "Maintain Operations") in
  stress ← row_item dashboard_df d_data "assi";
  value ← progress_value stress;
  _ ← st_progress lib value;
  Ok (mkCard name state priority banner score color mbu order value).

(** Lines 156-185; [sel_dist] is the district picked in the select box, a
    text.  The list of distinct districts is empty exactly when the frame
    has no row. *)
Definition tab3_deep_dive (lib : library) (dashboard_df : DataFrame) (sel_dist : string)
  : outcome district_card :=
  dist_list ← getcol "district" dashboard_df;
  if bool_decide (0 < length dist_list)%nat then
    _ ← sortable dist_list;
    district ← getcol "district" dashboard_df;
    match rows (select (map (cell_eqb_str sel_dist) district) dashboard_df) with
    | [] => Raise IndexError
    | d_data :: _ => tab3_card lib dashboard_df d_data
    end
  else Halt Warning no_district_message.

Record board := mkBoard {
  chart_data : option table;
  schedule : table;
  export : table }.

(** [column.isin([a, b])] on one cell. *)
Definition cell_isin (values : list string) (c : cell) : bool :=
  match c with
  | CStr t => bool_decide (t ∈ values)
  | _ => false
  end.

(** Lines 192-216. *)
Definition tab4_board (dashboard_df : DataFrame) : outcome board :=
  chart ←
    (if decide ("Preparedness_Index" ∈ columns dashboard_df) then
       sorted ← sort_values "Preparedness_Index" true dashboard_df;
       let chart_data := mkTable (body sorted) (sorted_by sorted) (Some 20%nat) in
       _ ← getcol "district" (body chart_data);
       _ ← getcol "state" (body chart_data);
       Ok (Some chart_data)
     else Ok None);
  priority ← getcol "Priority" dashboard_df;
  let action_plan :=
    select (map (cell_isin ["CRITICAL"; "High"]) priority) dashboard_df in
  action_plan ←
    (if decide ("Preparedness_Index" ∈ columns action_plan) then
       sort_values "Preparedness_Index" true action_plan
     else Ok (mkTable action_plan None None));
  let cols_table :=
    ["state"; "district"; "Priority"; "assi"; "future_mbu_demand";
     "District_Playbook"; "Preparedness_Index"] in
  let valid_cols_table := valid_columns cols_table (body action_plan) in
  Ok (mkBoard chart
        (mkTable (project valid_cols_table (body action_plan))
           (sorted_by action_plan) (head action_plan))
        action_plan).

(** *** The whole run *)

Record widgets := mkWidgets {
  selected_state : string;
  sim : sim_mode;
  sel_dist : string }.

Record page := mkPage {
  sidebar : sidebar_msg;
  overview : metrics;
  sentinel : option table;
  deep_dive : district_card;
  execution_board : board }.

(** Everything after the simulator: the four tabs, in the order the script
    runs them, on the frame the simulator left. *)
Definition render (lib : library) (dashboard_df : DataFrame) (msg : sidebar_msg)
    (sel_dist : string) : outcome page :=
  m ← tab1_metrics dashboard_df;
  dashboard_df ← tab1_charts dashboard_df;
  t2 ← tab2_sentinel dashboard_df;
  t3 ← tab3_deep_dive lib dashboard_df sel_dist;
  t4 ← tab4_board dashboard_df;
  Ok (mkPage msg m t2 t3 t4).

(** Lines 56-216 on the loaded frame [df]. *)
Definition dashboard (lib : library) (df : DataFrame) (w : widgets) : outcome page :=
  dashboard_df ← region_view df (selected_state w);
  '(dashboard_df, msg) ← simulate (sim w) dashboard_df;
  render lib dashboard_df msg (sel_dist w).

(** The script from its first line. *)
Definition app (lib : library) (file : option DataFrame) (w : widgets)
  : outcome page :=
  df ← load_data lib file; dashboard lib df w.

(** ** Sample data *)

(** The library as far as the sample data use it.  Their region names are
    ASCII text, on which [str.strip] and [str.title] are the functions of
    [AsciiText]; they hold no number among the region names and no text among
    the demands, so that [str] of a float and [int] of a string are never
    called; and every version of [st.progress] accepts the floats from 0.0
    to 1.0. *)
Definition sample_library : library :=
  {| float_str := λ _, "nan";
     str_strip := AsciiText.strip;
     str_title := AsciiText.title;
     int_str := λ _, None;
     progress_accepts := λ v, ((0 <=? v) && (v <=? 1))%float |}.

Definition core_columns : list string :=
  ["state"; "district"; "assi"; "Priority"; "security_status"; "future_mbu_demand"].

Definition district_row (state district : string) (assi : float)
    (priority status : string) (mbu : Z) : Row :=
  list_to_map
    [ ("state", CStr state); ("district", CStr district); ("assi", CFloat assi);
      ("Priority", CStr priority); ("security_status", CStr status);
      ("future_mbu_demand", CInt mbu) ].

(** One district with the given stress. *)
Definition one_district (assi : float) : DataFrame :=
  mkDF core_columns [district_row "Kerala" "Idukki" assi "High" "Normal" 800].

(** Three districts of two regions, as the file has them before cleaning. *)
Definition raw_sample : DataFrame :=
  mkDF core_columns
    [ district_row " orissa" "Puri" 3.0 "High" "Normal" 1200;
      district_row "Kerala " "Idukki" 6.0 "CRITICAL" "Sentinel Alert: Audit Required" 800;
      district_row "kerala" "Wayanad" 0.05 "Normal" "Normal" 300 ].

(** The same three districts after cleaning. *)
Definition sample : DataFrame :=
  mkDF core_columns
    [ district_row "Odisha" "Puri" 3.0 "High" "Normal" 1200;
      district_row "Kerala" "Idukki" 6.0 "CRITICAL" "Sentinel Alert: Audit Required" 800;
      district_row "Kerala" "Wayanad" 0.05 "Normal" "Normal" 300 ].

(** One district of the given region. *)
Definition region_sample (state : string) : DataFrame :=
  mkDF core_columns [district_row state "Idukki" 3.0 "High" "Normal" 800].

(** The spellings the correction table corrects to. *)
Definition corrected_names : list string := (map_to_list state_corrections).*2.

(** [df.drop(columns=[c])] *)
Definition drop_column (c : string) (df : DataFrame) : DataFrame :=
  mkDF (List.filter (λ c', negb (bool_decide (c' = c))) (columns df))
       (map (delete c) (rows df)).

(** The three districts with the two columns the scatter chart needs. *)
Definition full_sample : DataFrame :=
  setcol_scalar "age_18_greater" (CInt 5)
    (setcol_scalar "assi_acceleration" (CFloat 0.5) sample).

(** The widgets as the page first shows them, with a district picked. *)
Definition default_widgets : widgets :=
  mkWidgets all_india (StressTest 1) "Idukki".

(** The rows of the frame whose region is the selected one. *)
Definition region_rows (selected_state : string) (df : DataFrame) : DataFrame :=
  mkDF (columns df)
       (List.filter (λ r, cell_eqb_str selected_state (cell_at r "state")) (rows df)).

(** A file with the header of [full_sample] and no record. *)
Definition empty_sample : DataFrame := mkDF (columns full_sample) [].

(** The stress of every row as a float, when the column exists and holds
    numbers. *)
Definition stress_column (df : DataFrame) : outcome (list float) :=
  assi ← getcol "assi" df; traverse cell_float assi.

(** The number of values above the collapse threshold. *)
Definition collapsed (ys : list float) : nat :=
  length (List.filter (λ y, PyFloat.gtb y collapse_threshold) ys).

(** The simulator run a second time on the frame it produced. *)
Definition simulate_twice (mode : sim_mode) (df : DataFrame)
  : outcome (DataFrame * sidebar_msg) :=
  '(df1, _) ← simulate mode df; simulate mode df1.

(** The settings at which the sliders start: the guards of lines 74 and 91
    are false. *)
Definition at_defaults (mode : sim_mode) : bool :=
  match mode with
  | StressTest load_multiplier => negb (PyFloat.gtb load_multiplier 1)
  | DeploySolutions new_kits staff_boost =>
      negb ((0 <? new_kits)%Z || (0 <? staff_boost)%Z)
  end.

(** A test on every position of the two relief sliders: kits 0..50, staff
    efficiency 0..100. *)
Definition slider_grid (p : Z → Z → bool) : bool :=
  forallb (λ k, forallb (λ s, p k s) (seqZ 0 101)) (seqZ 0 51).

(** ** The rest of the script: the select boxes *)

(** [Series.unique()] on text: the values in the order in which they first
    appear. *)
Fixpoint unique_from (seen : list string) (l : list string) : list string :=
  match l with
  | [] => []
  | x :: l' =>
      if decide (x ∈ seen) then unique_from seen l'
      else x :: unique_from (x :: seen) l'
  end.

Definition unique (l : list string) : list string := unique_from [] l.

(** [sorted(names)] on text.  Python orders strings by code point, which is
    the order of their bytes; two strings that compare equal are the same
    string, so every sorting algorithm gives the same list. *)
Definition sorted (names : list string) : list string :=
  merge_sort (≤)%string names.

(** Line 56: the options of the region select box, computed from the region
    names of the loaded frame. *)
Definition region_options (states : list string) : list string :=
  all_india :: sorted (unique states).

(** Lines 159-161: the options of the district select box, computed from the
    district names of the view. *)
Definition district_options (districts : list string) : list string :=
  sorted (unique districts).

(** The region name of a row, when it is text. *)
Definition row_state (r : Row) : option string :=
  match r !! "state" with
  | Some (CStr s) => Some s
  | _ => None
  end.

(** One step of [title_from]: whether a character is cased, and what
    [title] writes for it after a cased or an uncased character. *)
Definition cased (c : ascii) : bool := AsciiText.is_lower c || AsciiText.is_upper c.

Definition title_char (previous_is_cased : bool) (c : ascii) : ascii :=
  if AsciiText.is_lower c then (if previous_is_cased then c else AsciiText.to_upper c)
  else if AsciiText.is_upper c then (if previous_is_cased then AsciiText.to_lower c else c)
  else c.

(** Two districts of the same name in two regions. *)
Definition twin_sample : DataFrame :=
  mkDF core_columns
    [ district_row "Bihar" "Aurangabad" 2.0 "High" "Normal" 500;
      district_row "Maharashtra" "Aurangabad" 4.0 "CRITICAL" "Normal" 900 ].

(** A number with the given sign: a zero, a finite number or an infinity. *)
Definition SFsign_is (s : bool) (x : spec_float) : Prop :=
  match x with
  | S754_zero s' | S754_infinity s' | S754_finite s' _ _ => s' = s
  | S754_nan => False
  end.

(** The collapsed count the sidebar reports when the region [sel] is picked
    in the select box and the simulator is run in the given mode. *)
Definition reported_for (mode : sim_mode) (df : DataFrame) (sel : string) : option nat :=
  match region_view df sel ≫= simulate mode with
  | Ok (_, msg) => reported_collapsed msg
  | _ => None
  end.

(** The three districts with a stress column that holds text. *)
Definition text_stress_sample : DataFrame :=
  setcol_scalar "assi" (CStr "n/a") sample.


(** The first of the given columns that the frame does not have. *)
Definition first_missing (cols : list string) (df : DataFrame) : option string :=
  List.find (λ c, negb (bool_decide (c ∈ columns df))) cols.


(** An empty file whose header has the score but not the region. *)
Definition headless_sample : DataFrame :=
  mkDF ["district"; "assi"; "Priority"; "security_status"; "future_mbu_demand";
        "assi_acceleration"; "age_18_greater"; "Preparedness_Index"] [].

(** ** Facts on binary64 numbers

    Primitive floats are specified by the Standard Library through
    [Prim2SF]; the order and the product are read off that specification. *)

Module FloatFacts.

Lemma SFcompare_refl x : x <> S754_nan -> SFcompare x x = Some Eq.
Proof.
  destruct x as [s|s| |s m e]; try congruence; intros _; simpl.
  - reflexivity.
  - destruct s; reflexivity.
  - destruct s; rewrite Z.compare_refl, Pos.compare_cont_refl; reflexivity.
Qed.

Lemma SFleb_not_nan x y : SFleb x y = true -> x <> S754_nan /\ y <> S754_nan.
Proof.
  unfold SFleb. destruct x, y; simpl; try discriminate; split; congruence.
Qed.

Lemma SFleb_trans x y z : SFleb x y = true -> SFleb y z = true -> SFleb x z = true.
Proof.
  unfold SFleb.
  destruct x as [sx|sx| |sx mx ex], y as [sy|sy| |sy my ey], z as [sz|sz| |sz mz ez];
    simpl; try discriminate; try reflexivity;
    try (destruct sx, sy, sz; simpl; (discriminate || reflexivity)).
  destruct sx, sy, sz; simpl; try discriminate; try reflexivity.
  - destruct (Z.compare_spec ex ey), (Z.compare_spec ey ez), (Z.compare_spec ex ez);
      subst; simpl; try discriminate; try reflexivity; try lia.
    all: rewrite ?Pos.compare_cont_spec; simpl.
    all: destruct (Pos.compare_spec mx my), (Pos.compare_spec my mz), (Pos.compare_spec mx mz);
      subst; simpl; try discriminate; try reflexivity; try lia.
  - destruct (Z.compare_spec ex ey), (Z.compare_spec ey ez), (Z.compare_spec ex ez);
      subst; simpl; try discriminate; try reflexivity; try lia.
    all: rewrite ?Pos.compare_cont_spec; simpl.
    all: destruct (Pos.compare_spec mx my), (Pos.compare_spec my mz), (Pos.compare_spec mx mz);
      subst; simpl; try discriminate; try reflexivity; try lia.
Qed.

Lemma leb_trans (x y z : float) :
  (x <=? y)%float = true -> (y <=? z)%float = true -> (x <=? z)%float = true.
Proof. rewrite !leb_spec. apply SFleb_trans. Qed.

Lemma is_nan_false x : is_nan x = false <-> Prim2SF x <> S754_nan.
Proof.
  unfold is_nan. rewrite FloatAxioms.eqb_spec. unfold SFeqb. split.
  - intros H E. rewrite E in H. discriminate.
  - intros H. rewrite SFcompare_refl by assumption. reflexivity.
Qed.

Lemma SFleb_negb_ltb x y :
  x <> S754_nan -> y <> S754_nan -> SFleb y x = negb (SFltb x y).
Proof.
  unfold SFleb, SFltb.
  destruct x as [sx|sx| |sx mx ex], y as [sy|sy| |sy my ey];
    try congruence; intros _ _; simpl; try reflexivity;
    try (destruct sx; reflexivity); try (destruct sy; reflexivity);
    try (destruct sx, sy; reflexivity).
  destruct sx, sy; simpl; try reflexivity.
  all: rewrite (Z.compare_antisym ex ey); destruct (ex ?= ey)%Z; simpl; try reflexivity.
  all: rewrite !Pos.compare_cont_spec; simpl; rewrite (Pos.compare_antisym mx my);
    destruct (mx ?= my)%positive; reflexivity.
Qed.

Lemma leb_negb_ltb (x y : float) :
  is_nan x = false -> is_nan y = false -> (y <=? x)%float = negb (x <? y)%float.
Proof.
  rewrite !is_nan_false, leb_spec, ltb_spec. apply SFleb_negb_ltb.
Qed.

Lemma shr_1_nonneg mrs : (0 <= shr_m mrs)%Z -> (0 <= shr_m (shr_1 mrs))%Z.
Proof.
  destruct mrs as [m r s]. simpl.
  destruct m as [|[p|p|]|[p|p|]]; simpl; lia.
Qed.

Lemma iter_pos_shr_1_nonneg p mrs :
  (0 <= shr_m mrs)%Z -> (0 <= shr_m (SpecFloat.iter_pos shr_1 p mrs))%Z.
Proof.
  revert mrs. induction p as [p IH|p IH|]; intros mrs H; simpl.
  - apply IH, IH, shr_1_nonneg, H.
  - apply IH, IH, H.
  - apply shr_1_nonneg, H.
Qed.

Lemma shr_fexp_nonneg m e l :
  (0 <= m)%Z -> (0 <= shr_m (fst (shr_fexp prec emax m e l)))%Z.
Proof.
  intros H. unfold shr_fexp, shr.
  assert (H0 : (0 <= shr_m (shr_record_of_loc m l))%Z)
    by (destruct l as [|[]]; exact H).
  destruct (fexp prec emax (Zdigits2 m + e) - e)%Z; simpl; try exact H0.
  apply iter_pos_shr_1_nonneg, H0.
Qed.

Lemma round_nearest_even_nonneg m l : (0 <= m)%Z -> (0 <= round_nearest_even m l)%Z.
Proof.
  intros H. destruct l as [|[]]; simpl; try lia.
  destruct (Z.even m); lia.
Qed.

Lemma binary_round_aux_not_nan sx mx ex lx :
  (0 <= mx)%Z -> binary_round_aux prec emax sx mx ex lx <> S754_nan.
Proof.
  intros H. unfold binary_round_aux.
  pose proof (shr_fexp_nonneg mx ex lx H) as H1.
  destruct (shr_fexp prec emax mx ex lx) as [mrs' e']. simpl in H1.
  pose proof (shr_fexp_nonneg _ e' loc_Exact
                (round_nearest_even_nonneg _ (loc_of_shr_record mrs') H1)) as H2.
  destruct (shr_fexp prec emax _ e' loc_Exact) as [mrs'' e'']. simpl in H2.
  destruct (shr_m mrs''); try lia; try discriminate.
  destruct (_ <=? _)%Z; discriminate.
Qed.

Lemma SFmul_finite_not_nan x s m e :
  x <> S754_nan -> SF64mul x (S754_finite s m e) <> S754_nan.
Proof.
  destruct x as [sx|sx| |sx mx ex]; try congruence; intros _; simpl; try discriminate.
  apply binary_round_aux_not_nan. lia.
Qed.

Lemma mul_finite_not_nan (x c : float) s m e :
  Prim2SF c = S754_finite s m e -> is_nan x = false -> is_nan (x * c) = false.
Proof.
  rewrite !is_nan_false, mul_spec. intros -> H.
  apply SFmul_finite_not_nan, H.
Qed.

Lemma leb_refl_of_leb (x y : float) :
  (x <=? y)%float = true -> (x <=? x)%float = true.
Proof.
  rewrite !leb_spec. intros H. apply SFleb_not_nan in H as [H _].
  unfold SFleb. rewrite SFcompare_refl by assumption. reflexivity.
Qed.

Lemma mul_nan_l (c : float) : is_nan (nan * c) = true.
Proof.
  destruct (is_nan (nan * c)) eqn:E; [reflexivity|].
  apply is_nan_false in E. rewrite mul_spec in E. contradiction E. reflexivity.
Qed.

Lemma is_nan_true (x : float) : is_nan x = true -> x = nan.
Proof.
  intros H. apply Prim2SF_inj.
  destruct (Prim2SF x) eqn:E; try reflexivity;
    assert (H' : is_nan x = false) by (apply is_nan_false; congruence);
    congruence.
Qed.

Lemma mul_2p52 (m : positive) :
  (m * 4503599627370496)%positive = Pos.iter xO m 52.
Proof.
  rewrite !Pos.mul_xO_r, Pos.mul_1_r. reflexivity.
Qed.

Lemma digits2_pos_iter_xO (n m : positive) :
  digits2_pos (Pos.iter xO m n) = (digits2_pos m + n)%positive.
Proof.
  induction n as [|n IH] using Pos.peano_ind.
  - simpl. lia.
  - rewrite Pos.iter_succ. simpl. rewrite IH. lia.
Qed.

Lemma iter_pos_eq {A} (f : A -> A) n x : SpecFloat.iter_pos f n x = Pos.iter f x n.
Proof.
  revert x. induction n as [n IH|n IH|]; intros x; simpl.
  - rewrite !IH, !Pos.iter_swap. reflexivity.
  - rewrite !IH. reflexivity.
  - reflexivity.
Qed.

Lemma shr_1_iter_xO (n m : positive) :
  Pos.iter shr_1 (Build_shr_record (Zpos (Pos.iter xO m n)) false false) n
  = Build_shr_record (Zpos m) false false.
Proof.
  induction n as [|n IH] using Pos.peano_ind.
  - reflexivity.
  - rewrite Pos.iter_succ_r, Pos.iter_succ. simpl shr_1. exact IH.
Qed.

Lemma SFmul_1_r x : valid_binary x = true -> SF64mul x (Prim2SF 1) = x.
Proof.
  change (Prim2SF 1) with (S754_finite false 4503599627370496 (-52)).
  destruct x as [s|s| |s m e]; intros Hv;
    try (destruct s; reflexivity); try reflexivity.
  unfold valid_binary, SpecFloat.valid_binary, bounded, canonical_mantissa in Hv.
  apply andb_prop in Hv as [Hc He]. apply Z.eqb_eq in Hc.
  unfold SF64mul, SFmul, binary_round_aux, shr_fexp.
  rewrite mul_2p52. cbn [Zdigits2]. rewrite digits2_pos_iter_xO.
  replace (fexp prec emax (Z.pos (digits2_pos m + 52) + (e + -52)))
    with e by (rewrite <- Hc at 1; f_equal; lia).
  replace (e - (e + -52))%Z with 52%Z by lia.
  cbn [shr shr_record_of_loc]. rewrite iter_pos_eq, shr_1_iter_xO.
  cbn [shr_m loc_of_shr_record round_nearest_even Zdigits2].
  replace (e + -52 + 52)%Z with e by lia. rewrite Hc, Z.sub_diag.
  cbn [shr shr_m shr_record_of_loc]. rewrite He. destruct s; reflexivity.
Qed.

Lemma mul_1_r (x : float) : (x * 1)%float = x.
Proof.
  apply Prim2SF_inj. rewrite mul_spec. apply SFmul_1_r, Prim2SF_valid.
Qed.

(** Two numbers that compare equal, one of them finite and not zero, are the
    same number. *)
Lemma SFcompare_finite_Eq s m e y :
  SFcompare (S754_finite s m e) y = Some Eq -> y = S754_finite s m e.
Proof.
  destruct y as [sy|sy| |sy my ey]; simpl; try discriminate;
    try (destruct s; discriminate); try (destruct sy; discriminate).
  destruct s, sy; try discriminate; intros [= H];
    destruct (Z.compare_spec e ey) as [->| |]; try discriminate;
    rewrite Pos.compare_cont_spec in H; simpl in H;
    destruct (Pos.compare_spec m my) as [->| |]; try discriminate; reflexivity.
Qed.

Lemma leb_not_ltb_eq (c x : float) s m e :
  Prim2SF c = S754_finite s m e ->
  (c <=? x)%float = true -> (c <? x)%float = false -> x = c.
Proof.
  rewrite leb_spec, ltb_spec. unfold SFleb, SFltb. intros Hc Hle Hlt.
  apply Prim2SF_inj. rewrite Hc in *. apply SFcompare_finite_Eq.
  destruct (SFcompare (S754_finite s m e) (Prim2SF x)) as [[]|];
    try discriminate; reflexivity.
Qed.

End FloatFacts.

(** ** Lemmas on the outcome monad and on frames *)

Section Traverse.
Context {A B : Type}.

Lemma traverse_length (f : A → outcome B) l ys :
  traverse f l = Ok ys → length ys = length l.
Proof.
  revert ys. induction l as [|x l IH]; intros ys; simpl.
  - intros [= <-]. reflexivity.
  - destruct (f x) as [y| |]; simpl; try discriminate.
    destruct (traverse f l) as [zs| |]; simpl; try discriminate.
    intros [= <-]. simpl. f_equal. apply IH. reflexivity.
Qed.

(** A step after a conversion that succeeds on the whole column. *)
Lemma traverse_then {C} (f : A → outcome B) (g : B → C) l ys :
  traverse f l = Ok ys →
  traverse (λ x, y ← f x; Ok (g y)) l = Ok (map g ys).
Proof.
  revert ys. induction l as [|x l IH]; intros ys; simpl.
  - intros [= <-]. reflexivity.
  - destruct (f x) as [y| |]; simpl; try discriminate.
    destruct (traverse f l) as [zs| |]; simpl; try discriminate.
    intros [= <-]. rewrite (IH zs eq_refl). reflexivity.
Qed.
End Traverse.

Lemma traverse_cell_float_CFloat (xs : list float) :
  traverse cell_float (map CFloat xs) = Ok xs.
Proof.
  induction xs as [|x xs IH]; simpl; [reflexivity|].
  rewrite IH. reflexivity.
Qed.

Lemma getcol_present c df :
  c ∈ columns df → getcol c df = Ok (map (λ r, cell_at r c) (rows df)).
Proof. intros H. unfold getcol. rewrite decide_True by assumption. reflexivity. Qed.

Lemma getcol_Ok c df col :
  getcol c df = Ok col →
  c ∈ columns df ∧ col = map (λ r, cell_at r c) (rows df).
Proof.
  unfold getcol. destruct (decide (c ∈ columns df)); [|discriminate].
  intros [= <-]. split; [assumption|reflexivity].
Qed.

Lemma getcol_absent c df : c ∉ columns df → getcol c df = Raise (KeyError c).
Proof. intros H. unfold getcol. rewrite decide_False by assumption. reflexivity. Qed.

Lemma getcol_length c df col : getcol c df = Ok col → length col = nrows df.
Proof.
  intros H. apply getcol_Ok in H as [_ ->]. unfold nrows. apply length_map.
Qed.

Lemma setcol_columns c vs df : c ∈ columns df → columns (setcol c vs df) = columns df.
Proof. intros H. simpl. rewrite decide_True by assumption. reflexivity. Qed.

Lemma setcol_nrows c vs df :
  length vs = nrows df → nrows (setcol c vs df) = nrows df.
Proof.
  unfold nrows. simpl. intros H. rewrite length_zip_with. lia.
Qed.

Lemma zip_with_insert_column c (rs : list Row) (vs : list cell) :
  length vs = length rs →
  map (λ r, cell_at r c) (zip_with (λ r v, <[c := v]> r) rs vs) = vs.
Proof.
  revert vs. induction rs as [|r rs IH]; intros [|v vs]; simpl; try discriminate;
    [reflexivity|].
  intros [= H]. rewrite (IH vs H). f_equal.
  unfold cell_at. rewrite lookup_insert_eq. reflexivity.
Qed.

(** Reading back the column that was just written. *)
Lemma getcol_setcol c vs df :
  length vs = nrows df → getcol c (setcol c vs df) = Ok vs.
Proof.
  intros H. unfold getcol. rewrite decide_True.
  - simpl. f_equal. apply zip_with_insert_column. exact H.
  - simpl. destruct (decide (c ∈ columns df)); [assumption|].
    apply elem_of_app. right. apply list_elem_of_singleton. reflexivity.
Qed.

(** Writing a column leaves every other field of every row as it was. *)
Lemma setcol_other_fields c vs df i (r r' : Row) c' :
  rows df !! i = Some r → rows (setcol c vs df) !! i = Some r' →
  c' ≠ c → r' !! c' = r !! c'.
Proof.
  simpl. intros Hr Hr' Hne.
  apply lookup_zip_with_Some in Hr' as (r0 & v & -> & Hr0 & _).
  rewrite Hr in Hr0. injection Hr0 as <-.
  apply lookup_insert_ne. congruence.
Qed.

Lemma mask_select_length_count {A} (mask : list bool) (l : list A) :
  length mask = length l →
  length (mask_select mask l) = length (List.filter id mask).
Proof.
  revert l. induction mask as [|b mask IH]; intros [|x l]; simpl; try discriminate;
    [reflexivity|].
  intros [= H]. destruct b; simpl; rewrite (IH l H); reflexivity.
Qed.

Lemma filter_id_map {A} (p : A → bool) (l : list A) :
  length (List.filter id (map p l)) = length (List.filter p l).
Proof.
  induction l as [|x l IH]; simpl; [reflexivity|].
  unfold id at 1. destruct (p x); simpl; f_equal; exact IH.
Qed.

(** Selecting by a mask computed row by row is filtering the rows. *)
Lemma mask_select_map {A} (p : A → bool) (l : list A) :
  mask_select (map p l) l = List.filter p l.
Proof.
  induction l as [|x l IH]; simpl; [reflexivity|].
  destruct (p x); rewrite IH; reflexivity.
Qed.

Lemma traverse_cell_gt_CFloat t (ys : list float) :
  traverse (cell_gt t) (map CFloat ys) = Ok (map (λ y, PyFloat.gtb y t) ys).
Proof.
  induction ys as [|y ys IH]; simpl; [reflexivity|].
  rewrite IH. reflexivity.
Qed.

Lemma stress_column_Ok df xs :
  stress_column df = Ok xs →
  ∃ col, getcol "assi" df = Ok col ∧ traverse cell_float col = Ok xs
         ∧ length xs = nrows df.
Proof.
  unfold stress_column. destruct (getcol "assi" df) as [col| |] eqn:Hg;
    simpl; try discriminate.
  intros Ht. exists col. split; [reflexivity|]. split; [assumption|].
  rewrite (traverse_length _ _ _ Ht). exact (getcol_length _ _ _ Hg).
Qed.

Lemma stress_column_setcol df (ys : list float) :
  length ys = nrows df →
  stress_column (setcol "assi" (map CFloat ys) df) = Ok ys.
Proof.
  intros H. unfold stress_column.
  rewrite getcol_setcol by (rewrite length_map; exact H).
  simpl. apply traverse_cell_float_CFloat.
Qed.

(** ** The simulator, branch by branch *)

(** The stress-test branch when the multiplier is above 1.0. *)
Lemma simulate_stress_test df m xs :
  PyFloat.gtb m 1 = true → stress_column df = Ok xs →
  simulate (StressTest m) df =
    Ok (setcol "assi" (map CFloat (map (λ x, x * m)%float xs)) df,
        Alert (collapsed (map (λ x, x * m)%float xs)) m).
Proof.
  intros Hm Hs. apply stress_column_Ok in Hs as (col & Hg & Ht & Hlen).
  unfold simulate. rewrite Hm, Hg. simpl.
  change (traverse (cell_mul m) col)
    with (traverse (λ c, x ← cell_float c; Ok (x * m)%float) col).
  rewrite (traverse_then _ _ _ _ Ht). simpl.
  set (ys := map (λ x, (x * m)%float) xs).
  assert (Hys : length (map CFloat ys) = nrows df)
    by (unfold ys; rewrite !length_map; exact Hlen).
  rewrite (getcol_setcol _ _ _ Hys). simpl.
  rewrite traverse_cell_gt_CFloat. simpl.
  do 3 f_equal. unfold nrows, select, collapsed. simpl.
  rewrite mask_select_length_count.
  - apply filter_id_map.
  - rewrite length_zip_with, !length_map. unfold nrows in Hys.
    rewrite length_map in Hys. lia.
Qed.

(** The stress-test branch when the multiplier is not above 1.0. *)
Lemma simulate_stress_test_idle df m :
  PyFloat.gtb m 1 = false →
  simulate (StressTest m) df = Ok (df, InfoIncreaseLoad).
Proof. intros Hm. unfold simulate. rewrite Hm. reflexivity. Qed.

(** The relief branch when a kit or a staff boost is deployed. *)
Lemma simulate_relief df k s xs :
  (0 <? k)%Z || (0 <? s)%Z = true → stress_column df = Ok xs →
  simulate (DeploySolutions k s) df =
    Ok (setcol "assi"
          (map CFloat
             (map (clip_lower stress_floor)
                (map (λ x, x * (1 - impact k s))%float xs))) df,
        Success (impact k s)).
Proof.
  intros Hks Hs. apply stress_column_Ok in Hs as (col & Hg & Ht & Hlen).
  unfold simulate. rewrite Hks, Hg. simpl.
  change (traverse (cell_mul (1 - impact k s)) col)
    with (traverse (λ c, x ← cell_float c; Ok (x * (1 - impact k s))%float) col).
  rewrite (traverse_then _ _ _ _ Ht). reflexivity.
Qed.

(** The relief branch when nothing is deployed. *)
Lemma simulate_relief_idle df k s :
  (0 <? k)%Z || (0 <? s)%Z = false →
  simulate (DeploySolutions k s) df = Ok (df, InfoDeploy).
Proof. intros Hks. unfold simulate. rewrite Hks. reflexivity. Qed.

(** What a successful run of the simulator did to the frame: nothing, or it
    wrote a float column of the frame's height over [assi]. *)
Lemma simulate_Ok_inv mode df df' msg :
  simulate mode df = Ok (df', msg) →
  df' = df ∨
  ∃ ys : list float, "assi" ∈ columns df ∧ length ys = nrows df
                     ∧ df' = setcol "assi" (map CFloat ys) df.
Proof.
  destruct mode as [m|k s]; unfold simulate.
  - destruct (PyFloat.gtb m 1); [|intros [= <- _]; left; reflexivity].
    destruct (getcol "assi" df) as [col| |] eqn:Hg; simpl; try discriminate.
    destruct (traverse (cell_mul m) col) as [ys| |] eqn:Ht; simpl; try discriminate.
    assert (Hlen : length ys = nrows df).
    { rewrite (traverse_length _ _ _ Ht). exact (getcol_length _ _ _ Hg). }
    rewrite getcol_setcol by (rewrite length_map; exact Hlen). simpl.
    rewrite traverse_cell_gt_CFloat. simpl. intros [= <- _].
    right. exists ys. apply getcol_Ok in Hg as [Hin _]. auto.
  - destruct ((0 <? k)%Z || (0 <? s)%Z); [|intros [= <- _]; left; reflexivity].
    destruct (getcol "assi" df) as [col| |] eqn:Hg; simpl; try discriminate.
    destruct (traverse (cell_mul (1 - impact k s)) col) as [ys| |] eqn:Ht;
      simpl; try discriminate.
    intros [= <- _]. right. exists (map (clip_lower stress_floor) ys).
    apply getcol_Ok in Hg as [Hin ->]. split; [assumption|]. split; [|reflexivity].
    rewrite length_map, (traverse_length _ _ _ Ht), length_map. reflexivity.
Qed.

(** ** The claims *)

(** C1 (amended).  Stress-test mode: for every multiplier [m] from 1.0 up
    and every row of the view, the transformed stress is the original stress
    times [m]; when [m] is above 1.0 the sidebar reports the number of rows
    whose transformed stress is strictly greater than 5.0; at [m = 1.0] the
    frame is left as it is and no collapsed count is reported. *)
Theorem stress_test_scales_and_counts (df : DataFrame) (m : float) (xs : list float) :
  PyFloat.le 1 m →
  stress_column df = Ok xs →
  ∃ df' msg,
    simulate (StressTest m) df = Ok (df', msg)
    ∧ stress_column df' = Ok (map (λ x, x * m)%float xs)
    ∧ (PyFloat.gtb m 1 = true →
       reported_collapsed msg = Some (collapsed (map (λ x, x * m)%float xs)))
    ∧ (PyFloat.gtb m 1 = false →
       m = 1%float ∧ df' = df ∧ reported_collapsed msg = None).
Proof.
  intros Hle Hs. destruct (PyFloat.gtb m 1) eqn:Hm.
  - eexists _, _. split; [apply simulate_stress_test; eassumption|].
    split; [|split; [reflexivity|discriminate]].
    apply stress_column_setcol. rewrite length_map.
    apply stress_column_Ok in Hs as (_ & _ & _ & Hlen). exact Hlen.
  - assert (H1 : m = 1%float)
      by (eapply FloatFacts.leb_not_ltb_eq; [reflexivity|exact Hle|exact Hm]).
    exists df, InfoIncreaseLoad.
    split; [apply simulate_stress_test_idle; assumption|].
    split; [|split; [discriminate|repeat split; assumption]].
    rewrite Hs, H1. f_equal. symmetry. erewrite map_ext; [apply map_id|].
    intros x. apply FloatFacts.mul_1_r.
Qed.

Lemma stress_test_scales_and_counts_witness :
  (PyFloat.le 1 2 ∧ stress_column sample = Ok [3; 6; 0.05]%float)
  ∧ ∃ df' msg,
      simulate (StressTest 2) sample = Ok (df', msg)
      ∧ stress_column df' = Ok (map (λ x, x * 2)%float [3; 6; 0.05]%float)
      ∧ (PyFloat.gtb 2 1 = true →
         reported_collapsed msg
         = Some (collapsed (map (λ x, x * 2)%float [3; 6; 0.05]%float)))
      ∧ (PyFloat.gtb 2 1 = false →
         2%float = 1%float ∧ df' = sample ∧ reported_collapsed msg = None).
Proof.
  split; [split; reflexivity|].
  exact (stress_test_scales_and_counts sample 2 [3; 6; 0.05]%float eq_refl eq_refl).
Defined.

(** C1 as stated fails at the slider's default [m = 1.0]: a district with
    stress 6.0 has transformed stress [6.0 * 1.0 > 5.0], so the count of such
    rows is 1, and the run reports no count. *)
Lemma stress_test_default_reports_no_count :
  PyFloat.le 1 1 ∧ PyFloat.le 1 5
  ∧ stress_column (one_district 6) = Ok [6%float]
  ∧ collapsed (map (λ x, x * 1)%float [6%float]) = 1%nat
  ∧ simulate (StressTest 1) (one_district 6) = Ok (one_district 6, InfoIncreaseLoad)
  ∧ ¬ ∃ df' msg,
        simulate (StressTest 1) (one_district 6) = Ok (df', msg)
        ∧ reported_collapsed msg = Some (collapsed (map (λ x, x * 1)%float [6%float])).
Proof.
  repeat split; try reflexivity.
  intros (df' & msg & Hrun & Hcount).
  rewrite simulate_stress_test_idle in Hrun by reflexivity.
  injection Hrun as <- <-. discriminate Hcount.
Qed.

(** C10.  At the default settings each mode is the identity on the data:
    with the multiplier exactly 1.0 the stress-test branch multiplies nothing
    and reports no collapsed count, and with no kit and no staff boost the
    relief branch neither scales nor floors; every row, also one with stress
    under 0.1 or over 5.0, is left as loaded. *)
Theorem defaults_leave_data_as_loaded (df : DataFrame) :
  simulate (StressTest 1) df = Ok (df, InfoIncreaseLoad)
  ∧ reported_collapsed InfoIncreaseLoad = None
  ∧ simulate (DeploySolutions 0 0) df = Ok (df, InfoDeploy)
  ∧ stress_column sample = Ok [3; 6; 0.05]%float
  ∧ (simulate (StressTest 1) sample ≫= λ p, stress_column p.1) = Ok [3; 6; 0.05]%float
  ∧ (simulate (DeploySolutions 0 0) sample ≫= λ p, stress_column p.1)
    = Ok [3; 6; 0.05]%float.
Proof. repeat split; reflexivity. Qed.

(** C7.  Frame condition: a run of the simulator, in either mode, keeps the
    frame's columns and its number of rows, and in every row it leaves every
    field other than the stress metric [assi] as it was. *)
Theorem simulate_frame (mode : sim_mode) (df df' : DataFrame) (msg : sidebar_msg) :
  simulate mode df = Ok (df', msg) →
  columns df' = columns df
  ∧ nrows df' = nrows df
  ∧ ∀ i (r r' : Row) c,
      rows df !! i = Some r → rows df' !! i = Some r' → c ≠ "assi" →
      r' !! c = r !! c.
Proof.
  intros H. apply simulate_Ok_inv in H as [->|(ys & Hin & Hlen & ->)].
  - repeat split. intros i r r' c Hr Hr' _. congruence.
  - split; [apply setcol_columns; assumption|].
    split; [apply setcol_nrows; rewrite length_map; assumption|].
    intros i r r' c Hr Hr' Hc. eapply setcol_other_fields; eassumption.
Qed.

Lemma simulate_frame_witness :
  ∃ df',
    simulate (DeploySolutions 10 50) sample = Ok (df', Success 0.7)
    ∧ columns df' = columns sample
    ∧ nrows df' = nrows sample
    ∧ ∀ i (r r' : Row) c,
        rows sample !! i = Some r → rows df' !! i = Some r' → c ≠ "assi" →
        r' !! c = r !! c.
Proof.
  eexists. split; [reflexivity|].
  exact (simulate_frame (DeploySolutions 10 50) sample _ _ eq_refl).
Defined.

(** ** The impact score on the sliders' grid *)

Lemma slider_grid_spec (p : Z → Z → bool) :
  slider_grid p = true →
  ∀ k s, (0 ≤ k ≤ 50)%Z → (0 ≤ s ≤ 100)%Z → p k s = true.
Proof.
  unfold slider_grid. intros H k s Hk Hs.
  rewrite forallb_forall in H.
  assert (Hin : In k (seqZ 0 51)) by (apply list_elem_of_In, elem_of_seqZ; lia).
  specialize (H k Hin). rewrite forallb_forall in H.
  apply H, list_elem_of_In, elem_of_seqZ. lia.
Qed.

Lemma impact_grid_cap :
  slider_grid (λ k s, (impact k s <=? impact_cap)%float) = true.
Proof. vm_compute. reflexivity. Qed.

Lemma impact_grid_step_kits :
  slider_grid (λ k s, (impact k s <=? impact (k + 1) s)%float) = true.
Proof. vm_compute. reflexivity. Qed.

Lemma impact_grid_step_staff :
  slider_grid (λ k s, (impact k s <=? impact k (s + 1))%float) = true.
Proof. vm_compute. reflexivity. Qed.

Lemma relief_factor_grid :
  slider_grid (λ k s, PyFloat.finite_nonzero (1 - impact k s)) = true.
Proof. vm_compute. reflexivity. Qed.

Lemma impact_le_cap k s :
  (0 ≤ k ≤ 50)%Z → (0 ≤ s ≤ 100)%Z → PyFloat.le (impact k s) impact_cap.
Proof. intros Hk Hs. exact (slider_grid_spec _ impact_grid_cap k s Hk Hs). Qed.

Lemma impact_mono_kits (d : nat) k s :
  (0 ≤ k)%Z → (k + Z.of_nat d ≤ 50)%Z → (0 ≤ s ≤ 100)%Z →
  PyFloat.le (impact k s) (impact (k + Z.of_nat d) s).
Proof.
  intros Hk Hd Hs. induction d as [|d IH].
  - rewrite Z.add_0_r. eapply FloatFacts.leb_refl_of_leb.
    apply impact_le_cap; lia.
  - eapply FloatFacts.leb_trans; [apply IH; lia|].
    replace (k + Z.of_nat (S d))%Z with (k + Z.of_nat d + 1)%Z by lia.
    apply (slider_grid_spec _ impact_grid_step_kits); lia.
Qed.

Lemma impact_mono_staff (d : nat) k s :
  (0 ≤ k ≤ 50)%Z → (0 ≤ s)%Z → (s + Z.of_nat d ≤ 100)%Z →
  PyFloat.le (impact k s) (impact k (s + Z.of_nat d)).
Proof.
  intros Hk Hs Hd. induction d as [|d IH].
  - rewrite Z.add_0_r. eapply FloatFacts.leb_refl_of_leb.
    apply impact_le_cap; lia.
  - eapply FloatFacts.leb_trans; [apply IH; lia|].
    replace (s + Z.of_nat (S d))%Z with (s + Z.of_nat d + 1)%Z by lia.
    apply (slider_grid_spec _ impact_grid_step_staff); lia.
Qed.

(** C9.  The relief impact is monotonically non-decreasing in each of its
    arguments: for kit counts [k1 <= k2] in 0..50 and staff percentages
    [s1 <= s2] in 0..100, [impact k1 s1 <= impact k2 s2]; and the impact never
    exceeds the cap 0.90. *)
Theorem impact_monotone_capped (k1 k2 s1 s2 : Z) :
  (0 ≤ k1 ≤ k2)%Z → (k2 ≤ 50)%Z → (0 ≤ s1 ≤ s2)%Z → (s2 ≤ 100)%Z →
  PyFloat.le (impact k1 s1) (impact k2 s2)
  ∧ PyFloat.le (impact k2 s2) impact_cap.
Proof.
  intros Hk Hk2 Hs Hs2. split; [|apply impact_le_cap; lia].
  apply FloatFacts.leb_trans with (impact k2 s1).
  - replace k2 with (k1 + Z.of_nat (Z.to_nat (k2 - k1)))%Z by lia.
    apply impact_mono_kits; lia.
  - replace s2 with (s1 + Z.of_nat (Z.to_nat (s2 - s1)))%Z by lia.
    apply impact_mono_staff; lia.
Qed.

Lemma impact_monotone_capped_witness :
  ((0 ≤ 10 ≤ 20)%Z ∧ (20 ≤ 50)%Z ∧ (0 ≤ 50 ≤ 60)%Z ∧ (60 ≤ 100)%Z)
  ∧ PyFloat.le (impact 10 50) (impact 20 60)
  ∧ PyFloat.le (impact 20 60) impact_cap.
Proof.
  split; [lia|].
  apply (impact_monotone_capped 10 20 50 60); lia.
Defined.

(** ** The relief transform *)

(** pandas's [clip(lower=lo)] is Python's [max(x, lo)] on every float. *)
Lemma clip_lower_py_max (lo x : float) :
  is_nan lo = false → clip_lower lo x = PyFloat.py_max x lo.
Proof.
  intros Hlo. unfold clip_lower, PyFloat.py_max.
  destruct (is_nan x) eqn:Hx; simpl.
  - apply FloatFacts.is_nan_true in Hx. subst x.
    rewrite ltb_spec. reflexivity.
  - rewrite (FloatFacts.leb_negb_ltb x lo Hx Hlo).
    destruct (x <? lo)%float; reflexivity.
Qed.

(** The floor holds for every value that is a number. *)
Lemma clip_lower_floor (x : float) :
  is_nan x = false → PyFloat.le stress_floor (clip_lower stress_floor x).
Proof.
  intros Hx. unfold clip_lower. rewrite Hx. simpl.
  destruct (stress_floor <=? x)%float eqn:H; [exact H|reflexivity].
Qed.

Lemma clip_lower_nan (lo x : float) : is_nan x = true → clip_lower lo x = x.
Proof. intros Hx. unfold clip_lower. rewrite Hx. reflexivity. Qed.

(** On the sliders' grid the factor [1 - impact] is a finite number other
    than zero, so scaling keeps numbers numbers. *)
Lemma relief_factor_keeps_numbers k s (x : float) :
  (0 ≤ k ≤ 50)%Z → (0 ≤ s ≤ 100)%Z →
  is_nan x = false → is_nan (x * (1 - impact k s)) = false.
Proof.
  intros Hk Hs Hx.
  pose proof (slider_grid_spec _ relief_factor_grid k s Hk Hs) as Hc.
  unfold PyFloat.finite_nonzero in Hc.
  destruct (Prim2SF (1 - impact k s)) as [| | |sg m e] eqn:E; try discriminate.
  exact (FloatFacts.mul_finite_not_nan x _ sg m e E Hx).
Qed.

(** C2 (amended).  Relief mode: for every kit count [k] and staff percentage
    [s] of which one at least is positive, the run computes
    [impact = min(0.02*k + 0.01*s, 0.90)] and maps every row's stress to
    [max(stress * (1 - impact), 0.1)], in binary64 arithmetic; with 10 kits
    and 50 percent the impact is 0.7 (under the cap) and a stress of 3.0
    becomes 0.9000000000000001, the float next above 0.9.  With no kit and no
    staff boost the view is left as it is. *)
Theorem relief_scales_and_floors (df : DataFrame) (k s : Z) (xs : list float) :
  (0 <? k)%Z || (0 <? s)%Z = true →
  stress_column df = Ok xs →
  ∃ df',
    simulate (DeploySolutions k s) df = Ok (df', Success (impact k s))
    ∧ impact k s
      = PyFloat.py_min
          (PyFloat.float_of_Z k * 0.02 + PyFloat.float_of_Z s * 0.01)%float 0.90
    ∧ stress_column df'
      = Ok (map (λ x, PyFloat.py_max (x * (1 - impact k s)) 0.1) xs)
    ∧ impact 10 50 = 0.7%float
    ∧ PyFloat.gtb impact_cap (impact 10 50) = true
    ∧ PyFloat.py_max (3 * (1 - impact 10 50)) 0.1 = 0.9000000000000001%float
    ∧ next_up 0.9 = 0.9000000000000001%float
    ∧ simulate (DeploySolutions 0 0) df = Ok (df, InfoDeploy).
Proof.
  intros Hks Hs. eexists. split; [apply simulate_relief; eassumption|].
  split; [reflexivity|]. split.
  - rewrite stress_column_setcol.
    + f_equal. rewrite map_map. apply map_ext. intros x.
      apply clip_lower_py_max. reflexivity.
    + rewrite !length_map.
      apply stress_column_Ok in Hs as (_ & _ & _ & Hlen). exact Hlen.
  - repeat split; reflexivity.
Qed.

Lemma relief_scales_and_floors_witness :
  ((0 <? 10)%Z || (0 <? 50)%Z = true ∧ stress_column sample = Ok [3; 6; 0.05]%float)
  ∧ ∃ df',
      simulate (DeploySolutions 10 50) sample = Ok (df', Success (impact 10 50))
      ∧ impact 10 50
        = PyFloat.py_min
            (PyFloat.float_of_Z 10 * 0.02 + PyFloat.float_of_Z 50 * 0.01)%float 0.90
      ∧ stress_column df'
        = Ok (map (λ x, PyFloat.py_max (x * (1 - impact 10 50)) 0.1)
                [3; 6; 0.05]%float)
      ∧ impact 10 50 = 0.7%float
      ∧ PyFloat.gtb impact_cap (impact 10 50) = true
      ∧ PyFloat.py_max (3 * (1 - impact 10 50)) 0.1 = 0.9000000000000001%float
      ∧ next_up 0.9 = 0.9000000000000001%float
      ∧ simulate (DeploySolutions 0 0) sample = Ok (sample, InfoDeploy).
Proof.
  split; [split; reflexivity|].
  exact (relief_scales_and_floors sample 10 50 [3; 6; 0.05]%float eq_refl eq_refl).
Defined.

(** C2 as stated fails at [k = 0], [s = 0]: the formula gives
    [max(0.05 * (1 - 0), 0.1) = 0.1] for a district with stress 0.05, and the
    run leaves the stress at 0.05. *)
Lemma relief_default_does_not_floor :
  ((0 ≤ 0 ≤ 50)%Z ∧ (0 ≤ 0 ≤ 100)%Z)
  ∧ stress_column (one_district 0.05) = Ok [0.05%float]
  ∧ PyFloat.py_max (0.05 * (1 - impact 0 0)) 0.1 = 0.1%float
  ∧ simulate (DeploySolutions 0 0) (one_district 0.05)
    = Ok (one_district 0.05, InfoDeploy)
  ∧ ¬ ∃ df' msg,
        simulate (DeploySolutions 0 0) (one_district 0.05) = Ok (df', msg)
        ∧ stress_column df'
          = Ok (map (λ x, PyFloat.py_max (x * (1 - impact 0 0)) 0.1) [0.05%float]).
Proof.
  split; [lia|]. repeat split; try reflexivity.
  intros (df' & msg & Hrun & Hcol).
  rewrite simulate_relief_idle in Hrun by reflexivity.
  injection Hrun as <- <-.
  apply (f_equal (λ o, match o with Ok [y] => Prim2SF y | _ => S754_nan end)) in Hcol.
  vm_compute in Hcol. discriminate Hcol.
Qed.

(** C3 (amended).  After the relief transform has run, that is for kits
    [k] in 0..50 and staff [s] in 0..100 of which one at least is positive,
    the resulting stress of every row whose stress is a number is at least
    0.1; a missing stress stays missing. *)
Theorem relief_floor (df : DataFrame) (k s : Z) (xs : list float) :
  (0 ≤ k ≤ 50)%Z → (0 ≤ s ≤ 100)%Z →
  (0 <? k)%Z || (0 <? s)%Z = true →
  stress_column df = Ok xs →
  ∃ df' ys,
    simulate (DeploySolutions k s) df = Ok (df', Success (impact k s))
    ∧ stress_column df' = Ok ys
    ∧ Forall2
        (λ x y, (is_nan x = false → PyFloat.le stress_floor y)
                ∧ (is_nan x = true → is_nan y = true))
        xs ys.
Proof.
  intros Hk Hs Hks Hcol. eexists _, _.
  split; [apply simulate_relief; eassumption|]. split.
  - apply stress_column_setcol. rewrite !length_map.
    apply stress_column_Ok in Hcol as (_ & _ & _ & Hlen). exact Hlen.
  - clear Hcol. induction xs as [|x xs IH]; simpl; constructor; [|exact IH].
    split; intros Hx.
    + apply clip_lower_floor, relief_factor_keeps_numbers; assumption.
    + apply FloatFacts.is_nan_true in Hx. subst x.
      rewrite clip_lower_nan; apply FloatFacts.mul_nan_l.
Qed.

Lemma relief_floor_witness :
  ((0 ≤ 10 ≤ 50)%Z ∧ (0 ≤ 50 ≤ 100)%Z ∧ (0 <? 10)%Z || (0 <? 50)%Z = true
   ∧ stress_column sample = Ok [3; 6; 0.05]%float)
  ∧ ∃ df' ys,
      simulate (DeploySolutions 10 50) sample = Ok (df', Success (impact 10 50))
      ∧ stress_column df' = Ok ys
      ∧ Forall2
          (λ x y, (is_nan x = false → PyFloat.le stress_floor y)
                  ∧ (is_nan x = true → is_nan y = true))
          [3; 6; 0.05]%float ys.
Proof.
  split; [repeat split; (lia || reflexivity)|].
  apply (relief_floor sample 10 50 [3; 6; 0.05]%float); (lia || reflexivity).
Defined.

(** C3 as stated fails at [k = 0], [s = 0]: the run leaves a stress of 0.05
    under the floor. *)
Lemma relief_default_below_floor :
  ((0 ≤ 0 ≤ 50)%Z ∧ (0 ≤ 0 ≤ 100)%Z)
  ∧ simulate (DeploySolutions 0 0) (one_district 0.05)
    = Ok (one_district 0.05, InfoDeploy)
  ∧ stress_column (one_district 0.05) = Ok [0.05%float]
  ∧ is_nan 0.05 = false
  ∧ (stress_floor <=? 0.05)%float = false
  ∧ ¬ ∃ df' msg ys,
        simulate (DeploySolutions 0 0) (one_district 0.05) = Ok (df', msg)
        ∧ stress_column df' = Ok ys
        ∧ Forall (λ y, PyFloat.le stress_floor y) ys.
Proof.
  split; [lia|]. repeat split; try reflexivity.
  intros (df' & msg & ys & Hrun & Hcol & Hall).
  rewrite simulate_relief_idle in Hrun by reflexivity.
  injection Hrun as <- <-.
  assert (Hys : ys = [0.05%float]) by (vm_compute in Hcol; congruence).
  subst ys. inversion Hall as [|y l Hle _]. discriminate Hle.
Qed.

(** ** Running the simulator twice *)

(** A second stress test multiplies the stress again. *)
Lemma stress_test_twice_compounds df m xs :
  PyFloat.gtb m 1 = true → stress_column df = Ok xs →
  (simulate_twice (StressTest m) df ≫= λ p, stress_column p.1)
  = Ok (map (λ x, x * m * m)%float xs).
Proof.
  intros Hm Hs. unfold simulate_twice.
  assert (Hlen : length (map (λ x, x * m)%float xs) = nrows df).
  { rewrite length_map. apply stress_column_Ok in Hs as (_ & _ & _ & H). exact H. }
  rewrite (simulate_stress_test df m xs Hm Hs). cbn [mbind outcome_bind].
  rewrite (simulate_stress_test _ m _ Hm (stress_column_setcol df _ Hlen)).
  cbn [mbind outcome_bind fst].
  rewrite stress_column_setcol.
  - rewrite map_map. reflexivity.
  - rewrite length_map, setcol_nrows; rewrite ?length_map; rewrite length_map in Hlen;
      exact Hlen.
Qed.

(** C4 (amended).  A transform applied twice gives what it gives applied once
    when its parameters are at the sliders' defaults (multiplier 1.0; no kit
    and no staff boost), where it leaves the data as it is. *)
Theorem simulate_twice_at_defaults (mode : sim_mode) (df : DataFrame) :
  at_defaults mode = true →
  simulate_twice mode df = simulate mode df
  ∧ ∃ msg, simulate mode df = Ok (df, msg).
Proof.
  intros H. unfold simulate_twice. destruct mode as [m|k s]; simpl in H;
    apply negb_true_iff in H.
  - rewrite (simulate_stress_test_idle df m H). cbn [mbind outcome_bind].
    rewrite (simulate_stress_test_idle df m H). eauto.
  - rewrite (simulate_relief_idle df k s H). cbn [mbind outcome_bind].
    rewrite (simulate_relief_idle df k s H). eauto.
Qed.

Lemma simulate_twice_at_defaults_witness :
  at_defaults (DeploySolutions 0 0) = true
  ∧ simulate_twice (DeploySolutions 0 0) sample = simulate (DeploySolutions 0 0) sample
  ∧ ∃ msg, simulate (DeploySolutions 0 0) sample = Ok (sample, msg).
Proof.
  split; [reflexivity|].
  exact (simulate_twice_at_defaults (DeploySolutions 0 0) sample eq_refl).
Defined.

(** C4 as stated fails in both modes.  With multiplier 2.0 a stress of 3.0
    becomes 6.0 after one application and 12.0 after two; with 10 kits and 50
    percent it becomes 0.9000000000000001 after one application and
    0.27000000000000007 after two. *)
Lemma simulate_twice_differs :
  (simulate (StressTest 2) (one_district 3) ≫= λ p, stress_column p.1)
  = Ok [6%float]
  ∧ (simulate_twice (StressTest 2) (one_district 3) ≫= λ p, stress_column p.1)
    = Ok [12%float]
  ∧ simulate_twice (StressTest 2) (one_district 3)
    ≠ simulate (StressTest 2) (one_district 3)
  ∧ (simulate (DeploySolutions 10 50) (one_district 3) ≫= λ p, stress_column p.1)
    = Ok [0.9000000000000001%float]
  ∧ (simulate_twice (DeploySolutions 10 50) (one_district 3)
       ≫= λ p, stress_column p.1)
    = Ok [0.27000000000000007%float]
  ∧ simulate_twice (DeploySolutions 10 50) (one_district 3)
    ≠ simulate (DeploySolutions 10 50) (one_district 3).
Proof.
  repeat split; try reflexivity; intros H.
  - apply (f_equal (λ o, match o ≫= λ p, stress_column p.1 with
                         | Ok [y] => Prim2SF y
                         | _ => S754_nan
                         end)) in H.
    vm_compute in H. discriminate H.
  - apply (f_equal (λ o, match o ≫= λ p, stress_column p.1 with
                         | Ok [y] => Prim2SF y
                         | _ => S754_nan
                         end)) in H.
    vm_compute in H. discriminate H.
Qed.

(** ** Strings: [strip] and [title] *)

Module AsciiFacts.
Import AsciiText.

Ltac by_cases_on_char c :=
  destruct c as [[] [] [] [] [] [] [] []]; vm_compute; try reflexivity; try discriminate.

Lemma to_upper_lower c :
  is_lower c = true → is_lower (to_upper c) = false ∧ is_upper (to_upper c) = true.
Proof. by_cases_on_char c; intros _; split; reflexivity. Qed.

Lemma to_lower_upper c : is_upper c = true → is_lower (to_lower c) = true.
Proof. by_cases_on_char c. Qed.

Lemma to_upper_space c : is_space (to_upper c) = is_space c.
Proof. by_cases_on_char c. Qed.

Lemma to_lower_space c : is_space (to_lower c) = is_space c.
Proof. by_cases_on_char c. Qed.

(** [title] again changes nothing. *)
Lemma title_from_idempotent b s : title_from b (title_from b s) = title_from b s.
Proof.
  revert b. induction s as [|c s IH]; intros b; simpl; [reflexivity|].
  destruct (is_lower c) eqn:Hl.
  - destruct b; simpl.
    + rewrite Hl, IH. reflexivity.
    + destruct (to_upper_lower c Hl) as [-> ->]. rewrite IH. reflexivity.
  - destruct (is_upper c) eqn:Hu.
    + destruct b; simpl.
      * rewrite (to_lower_upper c Hu), IH. reflexivity.
      * rewrite Hl, Hu, IH. reflexivity.
    + simpl. rewrite Hl, Hu, IH. reflexivity.
Qed.

Lemma title_from_starts_with_space b s :
  starts_with_space (title_from b s) = starts_with_space s.
Proof.
  destruct s as [|c s]; simpl; [reflexivity|].
  destruct (is_lower c); [destruct b; simpl; auto using to_upper_space|].
  destruct (is_upper c); [destruct b; simpl; auto using to_lower_space|].
  reflexivity.
Qed.

Lemma title_from_empty b s : title_from b s = EmptyString ↔ s = EmptyString.
Proof.
  destruct s as [|c s]; simpl; [tauto|].
  destruct (is_lower c), (is_upper c); split; discriminate.
Qed.

Lemma lstrip_length s : (String.length (lstrip s) ≤ String.length s)%nat.
Proof.
  induction s as [|c s IH]; simpl; [lia|].
  destruct (is_space c); simpl; lia.
Qed.

Lemma lstrip_fixed s : lstrip s = s ↔ starts_with_space s = false.
Proof.
  destruct s as [|c s]; simpl; [tauto|].
  destruct (is_space c); split; try reflexivity; try discriminate.
  intros H. pose proof (lstrip_length s) as Hlen. rewrite H in Hlen.
  simpl in Hlen. lia.
Qed.

Lemma lstrip_idempotent s : lstrip (lstrip s) = lstrip s.
Proof.
  induction s as [|c s IH]; simpl; [reflexivity|].
  destruct (is_space c) eqn:Hc; [exact IH|]. simpl. rewrite Hc. reflexivity.
Qed.

Lemma rstrip_idempotent s : rstrip (rstrip s) = rstrip s.
Proof.
  induction s as [|c s IH]; simpl; [reflexivity|].
  destruct (rstrip s) as [|d r] eqn:Hr.
  - destruct (is_space c) eqn:Hc; simpl; [reflexivity|]. rewrite Hc. reflexivity.
  - change (rstrip (String c (String d r))) with
      (match rstrip (String d r) with
       | EmptyString => if is_space c then EmptyString else String c EmptyString
       | x => String c x
       end).
    rewrite IH. reflexivity.
Qed.

Lemma rstrip_starts_with_space s :
  starts_with_space s = false → starts_with_space (rstrip s) = false.
Proof.
  destruct s as [|c s]; simpl; [reflexivity|]. intros Hc.
  destruct (rstrip s); simpl; [rewrite Hc; simpl|]; assumption.
Qed.

Lemma strip_stripped s : stripped (strip s).
Proof.
  unfold stripped, strip. split; [|apply rstrip_idempotent].
  apply lstrip_fixed, rstrip_starts_with_space, lstrip_fixed, lstrip_idempotent.
Qed.

Lemma strip_fixed s : stripped s → strip s = s.
Proof. intros [Hl Hr]. unfold strip. rewrite Hl. exact Hr. Qed.

Lemma rstrip_title_from b s : rstrip s = s → rstrip (title_from b s) = title_from b s.
Proof.
  revert b. induction s as [|c s IH]; intros b; [reflexivity|].
  simpl rstrip at 1. intros H.
  assert (Hcase : (s = EmptyString ∧ is_space c = false) ∨ (s ≠ EmptyString ∧ rstrip s = s)).
  { destruct (rstrip s) as [|d r] eqn:Hr.
    - destruct (is_space c); [discriminate|]. left. split; congruence.
    - right. injection H as <-. split; [discriminate|reflexivity]. }
  pose proof (title_from_starts_with_space b (String c s)) as Hsp.
  assert (Hstep : ∃ c' b', title_from b (String c s) = String c' (title_from b' s)).
  { simpl. destruct (is_lower c); [eauto|]. destruct (is_upper c); eauto. }
  destruct Hstep as (c' & b' & Ht). rewrite Ht in Hsp |- *. simpl in Hsp.
  simpl. destruct Hcase as [[-> Hc]|[Hne Hs]].
  - simpl. rewrite Hsp, Hc. reflexivity.
  - rewrite (IH b' Hs).
    destruct (title_from b' s) eqn:E; [|reflexivity].
    apply title_from_empty in E. contradiction.
Qed.

Lemma title_stripped s : stripped s → stripped (title s).
Proof.
  intros [Hl Hr]. split.
  - apply lstrip_fixed. unfold title. rewrite title_from_starts_with_space.
    apply lstrip_fixed, Hl.
  - apply rstrip_title_from, Hr.
Qed.

(** Lines 36 applied twice is line 36 applied once. *)
Lemma title_strip_idempotent s :
  title (strip (title (strip s))) = title (strip s).
Proof.
  rewrite (strip_fixed (title (strip s))).
  - apply title_from_idempotent.
  - apply title_stripped, strip_stripped.
Qed.

(** ASCII text stays ASCII text. *)
Lemma is_ascii_lstrip s : is_ascii s = true → is_ascii (lstrip s) = true.
Proof.
  induction s as [|c s IH]; simpl; [reflexivity|].
  intros H. destruct (is_space c); [|exact H].
  apply andb_true_iff in H as [_ H]. exact (IH H).
Qed.

Lemma is_ascii_rstrip s : is_ascii s = true → is_ascii (rstrip s) = true.
Proof.
  induction s as [|c s IH]; simpl; [reflexivity|].
  intros H. apply andb_true_iff in H as [Hc H]. specialize (IH H).
  destruct (rstrip s) as [|d r].
  - destruct (is_space c); simpl; [reflexivity|]. rewrite Hc. reflexivity.
  - simpl in *. rewrite Hc. exact IH.
Qed.

Lemma is_ascii_strip s : is_ascii s = true → is_ascii (strip s) = true.
Proof. intros H. apply is_ascii_rstrip, is_ascii_lstrip, H. Qed.

Lemma to_upper_ascii c : (code c <? 128)%N = true → (code (to_upper c) <? 128)%N = true.
Proof. by_cases_on_char c. Qed.

Lemma to_lower_ascii c : (code c <? 128)%N = true → (code (to_lower c) <? 128)%N = true.
Proof. by_cases_on_char c. Qed.

Lemma is_ascii_title_from b s : is_ascii s = true → is_ascii (title_from b s) = true.
Proof.
  revert b. induction s as [|c s IH]; intros b; simpl; [reflexivity|].
  intros H. apply andb_true_iff in H as [Hc H].
  destruct (is_lower c); [|destruct (is_upper c)]; simpl; rewrite IH by exact H;
    rewrite andb_true_r; try exact Hc; destruct b;
      auto using to_upper_ascii, to_lower_ascii.
Qed.

Lemma is_ascii_title s : is_ascii s = true → is_ascii (title s) = true.
Proof. apply is_ascii_title_from. Qed.

End AsciiFacts.

(** ** The loader *)

Lemma zip_with_insert_twice c (rs : list Row) (vs ws : list cell) :
  length vs = length rs →
  zip_with (λ r v, <[c := v]> r) (zip_with (λ r v, <[c := v]> r) rs vs) ws
  = zip_with (λ r v, <[c := v]> r) rs ws.
Proof.
  revert vs ws. induction rs as [|r rs IH]; intros [|v vs] [|w ws]; simpl;
    try discriminate; try reflexivity.
  intros [= H]. rewrite (IH vs ws H), insert_insert_eq. reflexivity.
Qed.

(** A column written twice holds what was written last. *)
Lemma setcol_setcol c vs ws df :
  c ∈ columns df → length vs = nrows df →
  setcol c ws (setcol c vs df) = setcol c ws df.
Proof.
  intros Hin Hlen. unfold setcol at 1 3.
  rewrite !(setcol_columns c vs df Hin). f_equal.
  simpl. apply zip_with_insert_twice. exact Hlen.
Qed.

(** The two assignments of [load_data] as one. *)
Lemma load_data_Ok lib df :
  "state" ∈ columns df →
  load_data lib (Some df)
  = Ok (setcol "state"
          (map (λ r, CStr (clean_state lib (astype_str lib (cell_at r "state"))))
             (rows df)) df).
Proof.
  intros Hin. unfold load_data. rewrite (getcol_present _ _ Hin).
  cbn [mbind outcome_bind].
  rewrite getcol_setcol by (rewrite !length_map; reflexivity).
  cbn [mbind outcome_bind].
  rewrite setcol_setcol;
    [|assumption|rewrite !length_map; reflexivity].
  rewrite !map_map. reflexivity.
Qed.

(** The spellings the table corrects to are ASCII text that the table does
    not correct again and that stripping and title-casing leave as it is. *)
Lemma corrected_names_clean :
  map_Forall
    (λ _ v, state_corrections !! v = None
            ∧ AsciiText.is_ascii v = true
            ∧ AsciiText.title (AsciiText.strip v) = v)
    state_corrections.
Proof.
  apply map_Forall_to_list.
  let l := eval vm_compute in (map_to_list state_corrections) in
  change (map_to_list state_corrections) with l.
  repeat constructor.
Qed.

(** No cleaned name is a misspelling the table lists, whatever [strip] and
    [title] do. *)
Lemma clean_state_not_listed lib s : state_corrections !! clean_state lib s = None.
Proof.
  unfold clean_state.
  destruct (state_corrections !! str_title lib (str_strip lib s)) as [v|] eqn:E; simpl.
  - exact (proj1 (corrected_names_clean _ _ E)).
  - exact E.
Qed.

(** Cleaning an ASCII name, with the functions of [AsciiText]. *)
Lemma clean_state_ascii lib s :
  ascii_text lib → AsciiText.is_ascii s = true →
  clean_state lib s
  = (let t := AsciiText.title (AsciiText.strip s) in default t (state_corrections !! t)).
Proof.
  intros Hlib Hs. unfold clean_state.
  rewrite (proj1 (Hlib s Hs)).
  rewrite (proj2 (Hlib _ (AsciiFacts.is_ascii_strip s Hs))). reflexivity.
Qed.

Lemma clean_state_is_ascii lib s :
  ascii_text lib → AsciiText.is_ascii s = true →
  AsciiText.is_ascii (clean_state lib s) = true.
Proof.
  intros Hlib Hs. rewrite clean_state_ascii by assumption. cbn zeta.
  destruct (state_corrections !! AsciiText.title (AsciiText.strip s)) as [v|] eqn:E; simpl.
  - exact (proj1 (proj2 (corrected_names_clean _ _ E))).
  - apply AsciiFacts.is_ascii_title, AsciiFacts.is_ascii_strip, Hs.
Qed.

(** A cleaned ASCII name has no white space at either end. *)
Lemma clean_state_stripped lib s :
  ascii_text lib → AsciiText.is_ascii s = true →
  AsciiText.stripped (clean_state lib s).
Proof.
  intros Hlib Hs. rewrite clean_state_ascii by assumption. cbn zeta.
  destruct (state_corrections !! AsciiText.title (AsciiText.strip s)) as [v|] eqn:E; simpl.
  - destruct (corrected_names_clean _ _ E) as (_ & _ & Hv). rewrite <- Hv.
    apply AsciiFacts.title_stripped, AsciiFacts.strip_stripped.
  - apply AsciiFacts.title_stripped, AsciiFacts.strip_stripped.
Qed.

(** A cleaned ASCII name is in its final form: cleaning it again changes
    nothing. *)
Lemma clean_state_idempotent lib s :
  ascii_text lib → AsciiText.is_ascii s = true →
  clean_state lib (clean_state lib s) = clean_state lib s.
Proof.
  intros Hlib Hs.
  rewrite (clean_state_ascii lib (clean_state lib s))
    by auto using clean_state_is_ascii.
  rewrite (clean_state_ascii lib s) by assumption. cbn zeta.
  destruct (state_corrections !! AsciiText.title (AsciiText.strip s)) as [v|] eqn:E;
    cbn [default from_option id].
  - destruct (corrected_names_clean _ _ E) as (Hv1 & _ & Hv2).
    rewrite Hv2, Hv1. reflexivity.
  - rewrite AsciiFacts.title_strip_idempotent, E. reflexivity.
Qed.

(** C5 (amended).  Data normalization: the loader maps each row's region
    name through [strip], then [title], then the correction table, and leaves
    the other fields and the rows as they are; afterwards no row's region name
    is a misspelling the table lists.  A region name that is ASCII text comes
    out as ASCII text in its final form: it has no white space at either end
    and cleaning it again changes nothing.  A name the table does not list is
    kept, whether or not it is the name of a region. *)
Theorem load_data_cleans_state (lib : library) (df : DataFrame) :
  "state" ∈ columns df →
  ∃ df',
    load_data lib (Some df) = Ok df'
    ∧ columns df' = columns df
    ∧ Forall2
        (λ r r' : Row,
           ∃ name,
             r' !! "state" = Some (CStr name)
             ∧ name
               = (let t := str_title lib (str_strip lib (astype_str lib (cell_at r "state")))
                  in default t (state_corrections !! t))
             ∧ state_corrections !! name = None
             ∧ (ascii_text lib →
                AsciiText.is_ascii (astype_str lib (cell_at r "state")) = true →
                name
                = (let t := AsciiText.title
                              (AsciiText.strip (astype_str lib (cell_at r "state")))
                   in default t (state_corrections !! t))
                ∧ AsciiText.is_ascii name = true
                ∧ AsciiText.stripped name
                ∧ clean_state lib name = name)
             ∧ ∀ c, c ≠ "state" → r' !! c = r !! c)
        (rows df) (rows df').
Proof.
  intros Hin. eexists. split; [apply load_data_Ok; assumption|].
  split; [apply setcol_columns; assumption|].
  simpl. induction (rows df) as [|r rs IH]; simpl; constructor; [|exact IH].
  eexists. split; [apply lookup_insert_eq|].
  split; [reflexivity|].
  split; [apply clean_state_not_listed|].
  split.
  { intros Hlib Hr.
    split; [apply clean_state_ascii; assumption|].
    split; [apply clean_state_is_ascii; assumption|].
    split; [apply clean_state_stripped; assumption|].
    apply clean_state_idempotent; assumption. }
  intros c Hc. apply lookup_insert_ne. congruence.
Qed.

Lemma load_data_cleans_state_witness :
  ("state" ∈ columns raw_sample)
  ∧ ascii_text sample_library
  ∧ load_data sample_library (Some raw_sample) = Ok sample
  ∧ ∃ df',
      load_data sample_library (Some raw_sample) = Ok df'
      ∧ columns df' = columns raw_sample
      ∧ Forall2
          (λ r r' : Row,
             ∃ name,
               r' !! "state" = Some (CStr name)
               ∧ name
                 = (let t := str_title sample_library
                               (str_strip sample_library
                                  (astype_str sample_library (cell_at r "state")))
                    in default t (state_corrections !! t))
               ∧ state_corrections !! name = None
               ∧ (ascii_text sample_library →
                  AsciiText.is_ascii (astype_str sample_library (cell_at r "state")) = true →
                  name
                  = (let t := AsciiText.title
                                (AsciiText.strip
                                   (astype_str sample_library (cell_at r "state")))
                     in default t (state_corrections !! t))
                  ∧ AsciiText.is_ascii name = true
                  ∧ AsciiText.stripped name
                  ∧ clean_state sample_library name = name)
               ∧ ∀ c, c ≠ "state" → r' !! c = r !! c)
          (rows raw_sample) (rows df').
Proof.
  assert (Hin : "state" ∈ columns raw_sample) by (simpl; constructor).
  split; [exact Hin|]. split; [intros s _; split; reflexivity|].
  split; [vm_compute; reflexivity|].
  exact (load_data_cleans_state sample_library raw_sample Hin).
Defined.

(** A file of one district whose region name is ASCII text, clean already
    and not listed in the table, loads to itself with every library that is
    Python's on ASCII text. *)
Lemma load_region_sample lib name :
  ascii_text lib → AsciiText.is_ascii name = true →
  AsciiText.title (AsciiText.strip name) = name →
  state_corrections !! name = None →
  load_data lib (Some (region_sample name)) = Ok (region_sample name).
Proof.
  intros Hlib Hascii Hclean Hkey.
  rewrite load_data_Ok by (simpl; constructor). f_equal.
  change (rows (region_sample name))
    with [district_row name "Idukki" 3.0 "High" "Normal" 800].
  cbn [map].
  replace (cell_at (district_row name "Idukki" 3 "High" "Normal" 800) "state")
    with (CStr name) by (vm_compute; reflexivity).
  cbn [astype_str]. rewrite clean_state_ascii by assumption. cbn zeta.
  rewrite Hclean, Hkey. cbn [default from_option id].
  vm_compute. reflexivity.
Qed.

(** C5 as stated fails on a region name the table does not list: the
    misspelling [Keralaa] is trimmed and title-cased already and is not a key
    of the table, so the loader keeps it, and it is none of the corrected
    names. *)
Lemma unlisted_name_is_kept :
  ascii_text sample_library
  ∧ load_data sample_library (Some (region_sample "Keralaa"))
    = Ok (region_sample "Keralaa")
  ∧ clean_state sample_library "Keralaa" = "Keralaa"
  ∧ ("Keralaa" ∉ corrected_names)
  ∧ ¬ ∃ df',
        load_data sample_library (Some (region_sample "Keralaa")) = Ok df'
        ∧ Forall (λ r : Row, ∃ name, r !! "state" = Some (CStr name)
                                     ∧ name ∈ corrected_names)
            (rows df').
Proof.
  assert (Hrun : load_data sample_library (Some (region_sample "Keralaa"))
                 = Ok (region_sample "Keralaa")) by (vm_compute; reflexivity).
  assert (Hnot : "Keralaa" ∉ corrected_names)
    by (intros H; apply list_elem_of_In in H; vm_compute in H;
        intuition discriminate).
  split; [intros s _; split; reflexivity|].
  split; [exact Hrun|]. split; [vm_compute; reflexivity|]. split; [exact Hnot|].
  intros (df' & Hrun' & Hall). rewrite Hrun in Hrun'. injection Hrun' as <-.
  inversion Hall as [|r rs (name & Hname & Hcan) _]; subst.
  vm_compute in Hname. injection Hname as <-. exact (Hnot Hcan).
Qed.

(** ** The region filter *)

Lemma region_is s (r : Row) :
  cell_eqb_str s (cell_at r "state") = true ↔ r !! "state" = Some (CStr s).
Proof.
  unfold cell_at. destruct (r !! "state") as [[x|n|t]|]; simpl;
    try (split; discriminate).
  rewrite bool_decide_eq_true. split; [intros ->; reflexivity|intros [=]; assumption].
Qed.

Lemma filter_twice {A} (p : A → bool) (l : list A) :
  List.filter p (List.filter p l) = List.filter p l.
Proof.
  induction l as [|x l IH]; simpl; [reflexivity|].
  destruct (p x) eqn:Hp; simpl; rewrite ?Hp, IH; reflexivity.
Qed.

Lemma region_view_selected df sel :
  sel ≠ all_india → "state" ∈ columns df →
  region_view df sel = Ok (region_rows sel df).
Proof.
  intros Hsel Hin. unfold region_view.
  rewrite bool_decide_eq_true_2 by assumption.
  rewrite (getcol_present _ _ Hin). cbn [mbind outcome_bind].
  unfold select, region_rows. rewrite map_map, mask_select_map. reflexivity.
Qed.

Lemma region_rows_twice sel df : region_rows sel (region_rows sel df) = region_rows sel df.
Proof. unfold region_rows. simpl. rewrite filter_twice. reflexivity. Qed.

(** C6.  Region filtering: when a region other than "All India" is selected,
    the working frame holds exactly the rows of the loaded frame whose region
    is the selection, in their order, and everything the script computes
    after the filter (the simulator, the metrics, the tables, the export) is
    computed from that frame, so that the rows of other regions have no
    effect; when "All India" is selected the working frame is the loaded
    frame. *)
Theorem region_filter_exact (lib : library) (df : DataFrame) (sel : string) :
  sel ≠ all_india → "state" ∈ columns df →
  region_view df sel = Ok (region_rows sel df)
  ∧ columns (region_rows sel df) = columns df
  ∧ (∀ r : Row, In r (rows (region_rows sel df))
                ↔ In r (rows df) ∧ r !! "state" = Some (CStr sel))
  ∧ (∀ mode d,
       dashboard lib df (mkWidgets sel mode d)
       = ('(v, msg) ← simulate mode (region_rows sel df); render lib v msg d)
       ∧ dashboard lib (region_rows sel df) (mkWidgets sel mode d)
         = dashboard lib df (mkWidgets sel mode d))
  ∧ region_view df all_india = Ok df
  ∧ (∀ mode d,
       dashboard lib df (mkWidgets all_india mode d)
       = ('(v, msg) ← simulate mode df; render lib v msg d)).
Proof.
  intros Hsel Hin. split; [apply region_view_selected; assumption|].
  split; [reflexivity|]. split.
  { intros r. unfold region_rows. simpl. rewrite filter_In, region_is. reflexivity. }
  split; [|split; [reflexivity|intros mode d; reflexivity]].
  intros mode d. unfold dashboard. simpl.
  rewrite (region_view_selected df sel Hsel Hin).
  rewrite (region_view_selected (region_rows sel df) sel Hsel Hin).
  rewrite region_rows_twice. split; reflexivity.
Qed.

Lemma region_filter_exact_witness :
  ("Kerala" ≠ all_india ∧ "state" ∈ columns full_sample)
  ∧ region_view full_sample "Kerala" = Ok (region_rows "Kerala" full_sample)
  ∧ columns (region_rows "Kerala" full_sample) = columns full_sample
  ∧ (∀ r : Row, In r (rows (region_rows "Kerala" full_sample))
                ↔ In r (rows full_sample) ∧ r !! "state" = Some (CStr "Kerala"))
  ∧ (∀ mode d,
       dashboard sample_library full_sample (mkWidgets "Kerala" mode d)
       = ('(v, msg) ← simulate mode (region_rows "Kerala" full_sample);
          render sample_library v msg d)
       ∧ dashboard sample_library (region_rows "Kerala" full_sample)
           (mkWidgets "Kerala" mode d)
         = dashboard sample_library full_sample (mkWidgets "Kerala" mode d))
  ∧ region_view full_sample all_india = Ok full_sample
  ∧ (∀ mode d,
       dashboard sample_library full_sample (mkWidgets all_india mode d)
       = ('(v, msg) ← simulate mode full_sample; render sample_library v msg d)).
Proof.
  assert (Hsel : "Kerala" ≠ all_india) by discriminate.
  assert (Hin : "state" ∈ columns full_sample) by (simpl; constructor).
  split; [split; assumption|].
  exact (region_filter_exact sample_library full_sample "Kerala" Hsel Hin).
Defined.

(** ** Columns that are present or absent *)

Ltac column_present :=
  apply list_elem_of_In; vm_compute;
  repeat (first [left; reflexivity | right]).
Ltac column_absent :=
  let H := fresh in
  intros H; apply list_elem_of_In in H; vm_compute in H;
  repeat (destruct H as [H|H]; [discriminate H|]); exact H.


Lemma row_get_absent df (r : Row) c dflt : c ∉ columns df → row_get df r c dflt = dflt.
Proof. intros H. unfold row_get. rewrite decide_False by assumption. reflexivity. Qed.

Lemma row_item_absent df (r : Row) c : c ∉ columns df → row_item df r c = Raise (KeyError c).
Proof. intros H. unfold row_item. rewrite decide_False by assumption. reflexivity. Qed.

Lemma row_item_present df (r : Row) c : c ∈ columns df → row_item df r c = Ok (cell_at r c).
Proof. intros H. unfold row_item. rewrite decide_True by assumption. reflexivity. Qed.


(** ** Further properties *)

Lemma stress_test_twice_compounds_witness :
  (PyFloat.gtb 2 1 = true ∧ stress_column sample = Ok [3; 6; 0.05]%float)
  ∧ (simulate_twice (StressTest 2) sample ≫= λ p, stress_column p.1)
    = Ok (map (λ x, x * 2 * 2)%float [3; 6; 0.05]%float).
Proof.
  split; [split; reflexivity|].
  exact (stress_test_twice_compounds sample 2 [3; 6; 0.05]%float eq_refl eq_refl).
Defined.

(** ** The tabs after the simulator *)

Lemma bind_Ok_inv {A B} (c : outcome A) (f : A → outcome B) y :
  c ≫= f = Ok y → ∃ x, c = Ok x ∧ f x = Ok y.
Proof. destruct c as [x| |]; simpl; try discriminate. eauto. Qed.

Lemma zip_with_insert_other c c' (rs : list Row) (vs : list cell) :
  c' ≠ c → length vs = length rs →
  map (λ r, cell_at r c') (zip_with (λ r v, <[c := v]> r) rs vs)
  = map (λ r, cell_at r c') rs.
Proof.
  intros Hne. revert vs. induction rs as [|r rs IH]; intros [|v vs]; simpl;
    try discriminate; [reflexivity|].
  intros [= H]. rewrite (IH vs H). f_equal.
  unfold cell_at. rewrite lookup_insert_ne by congruence. reflexivity.
Qed.

(** Writing a column leaves the other columns as they were. *)
Lemma getcol_setcol_ne c c' vs df :
  c' ≠ c → length vs = nrows df → getcol c' (setcol c vs df) = getcol c' df.
Proof.
  intros Hne Hlen. unfold getcol.
  assert (Hcols : c' ∈ columns (setcol c vs df) ↔ c' ∈ columns df).
  { simpl. destruct (decide (c ∈ columns df)); [reflexivity|].
    rewrite elem_of_app, list_elem_of_singleton. tauto. }
  destruct (decide (c' ∈ columns df)) as [Hin|Hout].
  - rewrite decide_True by (apply Hcols; exact Hin).
    simpl. rewrite zip_with_insert_other by assumption. reflexivity.
  - rewrite decide_False by (rewrite Hcols; exact Hout). reflexivity.
Qed.

Lemma select_nrows mask df df' :
  nrows df' = nrows df → length mask = nrows df →
  nrows (select mask df') = nrows (select mask df).
Proof.
  unfold nrows, select. simpl. intros H1 H2.
  rewrite !mask_select_length_count by congruence. reflexivity.
Qed.

(** The simulator changes the stress and nothing else that the overview
    shows: the numbers of critical hotspots and of sentinel alerts and the
    demand column are the same before and after it, whatever the mode and
    the sliders. *)
Theorem simulator_keeps_other_metrics (mode : sim_mode) (df df' : DataFrame)
    (msg : sidebar_msg) (m : metrics) :
  simulate mode df = Ok (df', msg) →
  tab1_metrics df = Ok m →
  ∃ m',
    tab1_metrics df' = Ok m'
    ∧ critical_count m' = critical_count m
    ∧ mbu_total_of m' = mbu_total_of m
    ∧ security_alerts m' = security_alerts m.
Proof.
  intros Hsim Hm. apply simulate_Ok_inv in Hsim as [->|(ys & Hin & Hlen & ->)].
  { exists m. auto. }
  assert (Hlen' : length (map CFloat ys) = nrows df) by (rewrite length_map; exact Hlen).
  unfold tab1_metrics in *.
  rewrite (getcol_setcol_ne "assi" "Priority"),
          (getcol_setcol_ne "assi" "future_mbu_demand"),
          (getcol_setcol_ne "assi" "security_status"),
          (getcol_setcol "assi") by (assumption || discriminate).
  destruct (getcol "Priority" df) as [priority| |] eqn:Hp; try discriminate Hm.
  destruct (getcol "assi" df) as [assi| |] eqn:Ha; try discriminate Hm.
  destruct (getcol "future_mbu_demand" df) as [mbu| |] eqn:Hd; try discriminate Hm.
  destruct (getcol "security_status" df) as [status| |] eqn:Hs; try discriminate Hm.
  cbn [mbind outcome_bind] in *. injection Hm as <-.
  eexists. split; [reflexivity|]. cbn [critical_count mbu_total_of security_alerts].
  pose proof (setcol_nrows "assi" _ df Hlen') as Hn.
  split; [|split; [reflexivity|]]; apply select_nrows; try exact Hn;
    rewrite ?length_map; eapply getcol_length; eassumption.
Qed.

Lemma simulator_keeps_other_metrics_witness :
  ∃ df' m,
    (simulate (StressTest 2) sample = Ok (df', Alert 2 2) ∧ tab1_metrics sample = Ok m)
    ∧ ∃ m',
        tab1_metrics df' = Ok m'
        ∧ critical_count m' = critical_count m
        ∧ mbu_total_of m' = mbu_total_of m
        ∧ security_alerts m' = security_alerts m.
Proof.
  eexists _, _. split; [split; reflexivity|].
  exact (simulator_keeps_other_metrics (StressTest 2) sample _ _ _ eq_refl eq_refl).
Defined.

Lemma render_Ok_inv lib df msg d p :
  render lib df msg d = Ok p →
  ∃ m df1 t2 t3 t4,
    tab1_metrics df = Ok m ∧ tab1_charts df = Ok df1
    ∧ tab2_sentinel df1 = Ok t2 ∧ tab3_deep_dive lib df1 d = Ok t3
    ∧ tab4_board df1 = Ok t4 ∧ p = mkPage msg m t2 t3 t4.
Proof.
  unfold render. intros H.
  apply bind_Ok_inv in H as (m & Hm & H).
  apply bind_Ok_inv in H as (df1 & Hc & H).
  apply bind_Ok_inv in H as (t2 & H2 & H).
  apply bind_Ok_inv in H as (t3 & H3 & H).
  apply bind_Ok_inv in H as (t4 & H4 & H).
  injection H as <-. eauto 12.
Qed.

(** What the charts of tab 1 leave: the frame itself, or the frame with a
    [district_type] column of "Unknown". *)
Lemma tab1_charts_Ok_inv df df1 :
  tab1_charts df = Ok df1 →
  ("district_type" ∈ columns df ∧ df1 = df)
  ∨ (("district_type" ∉ columns df)
     ∧ df1 = setcol_scalar "district_type" (CStr "Unknown") df).
Proof.
  unfold tab1_charts. intros H.
  apply bind_Ok_inv in H as ([] & _ & H).
  destruct (decide ("district_type" ∈ columns df)) as [Hin|Hout];
    apply bind_Ok_inv in H as ([] & _ & H); injection H as <-; auto.
Qed.

Lemma setcol_scalar_nrows c v df : nrows (setcol_scalar c v df) = nrows df.
Proof. apply setcol_nrows. apply length_replicate. Qed.

Lemma tab1_charts_nrows df df1 : tab1_charts df = Ok df1 → nrows df1 = nrows df.
Proof.
  intros H. apply tab1_charts_Ok_inv in H as [[_ ->]|[_ ->]];
    [reflexivity|apply setcol_scalar_nrows].
Qed.

(** The charts leave every column the frame had as it was. *)
Lemma tab1_charts_getcol df df1 c :
  tab1_charts df = Ok df1 → c ∈ columns df → getcol c df1 = getcol c df.
Proof.
  intros H Hc. apply tab1_charts_Ok_inv in H as [[_ ->]|[Hout ->]]; [reflexivity|].
  apply getcol_setcol_ne; [congruence|apply length_replicate].
Qed.

Lemma project_nrows cols df : nrows (project cols df) = nrows df.
Proof. unfold nrows, project. simpl. apply length_map. Qed.

(** The "Sentinel Alerts" number of the overview is the number of rows of the
    table of tab 2; the tab shows no table exactly when the number is 0. *)
Theorem sentinel_metric_matches_table (lib : library) (df : DataFrame)
    (msg : sidebar_msg) (d : string) (p : page) :
  render lib df msg d = Ok p →
  match sentinel p with
  | Some t => nrows (body t) = security_alerts (overview p)
              ∧ (0 < security_alerts (overview p))%nat
  | None => security_alerts (overview p) = 0%nat
  end.
Proof.
  intros H. apply render_Ok_inv in H as (m & df1 & t2 & t3 & t4 & Hm & Hc & H2 & _ & _ & ->).
  cbn [sentinel overview].
  unfold tab1_metrics in Hm.
  apply bind_Ok_inv in Hm as (priority & _ & Hm).
  apply bind_Ok_inv in Hm as (assi & _ & Hm).
  apply bind_Ok_inv in Hm as (mbu & _ & Hm).
  apply bind_Ok_inv in Hm as (status & Hs & Hm).
  injection Hm as <-. cbn [security_alerts].
  unfold tab2_sentinel in H2.
  assert (Hin : "security_status" ∈ columns df) by (apply getcol_Ok in Hs; tauto).
  rewrite (tab1_charts_getcol df df1 _ Hc Hin), Hs in H2. cbn [mbind outcome_bind] in H2.
  set (mask := map (λ c, negb (cell_eqb_str "Normal" c)) status) in *.
  apply bind_Ok_inv in H2 as (t & Ht & H2).
  unfold sort_values in Ht. apply bind_Ok_inv in Ht as (? & _ & Ht). injection Ht as <-.
  cbn [body sorted_by head] in H2.
  assert (Hn : nrows (select mask df1) = nrows (select mask df)).
  { apply select_nrows; [eapply tab1_charts_nrows; eassumption|].
    unfold mask. rewrite length_map. eapply getcol_length; eassumption. }
  assert (Hcols : columns (select mask df1) ≠ []).
  { simpl. intros E. apply getcol_Ok in Hs as [Hs _].
    assert (Hin1 : "security_status" ∈ columns df1).
    { apply tab1_charts_Ok_inv in Hc as [[_ ->]|[_ ->]]; [assumption|].
      simpl. destruct (decide _); [assumption|]. apply elem_of_app. auto. }
    rewrite E in Hin1. inversion Hin1. }
  unfold empty in H2. rewrite (bool_decide_eq_false_2 _ Hcols) in H2. cbn [orb] in H2.
  destruct (bool_decide (rows (select mask df1) = [])) eqn:Hrows;
    cbn [negb orb] in H2.
  - injection H2 as <-. apply bool_decide_eq_true in Hrows.
    rewrite <- Hn. unfold nrows. rewrite Hrows. reflexivity.
  - injection H2 as <-. cbn [body]. rewrite project_nrows, Hn. split; [reflexivity|].
    apply bool_decide_eq_false in Hrows. rewrite <- Hn. unfold nrows.
    destruct (rows (select mask df1)); [contradiction|simpl; lia].
Qed.

Lemma sentinel_metric_matches_table_witness :
  ∃ p,
    render sample_library full_sample InfoIncreaseLoad "Idukki" = Ok p
    ∧ match sentinel p with
      | Some t => nrows (body t) = security_alerts (overview p)
                  ∧ (0 < security_alerts (overview p))%nat
      | None => security_alerts (overview p) = 0%nat
      end.
Proof.
  eexists. split; [vm_compute; reflexivity|].
  exact (sentinel_metric_matches_table sample_library full_sample InfoIncreaseLoad
           "Idukki" _ eq_refl).
Defined.

(** What tab 4 computes when it succeeds: the exported plan is the rows whose
    priority is CRITICAL or High, and the table on the page is that plan
    restricted to the display columns it has. *)
Lemma tab4_board_Ok_inv df b :
  tab4_board df = Ok b →
  "Priority" ∈ columns df
  ∧ body (export b)
    = mkDF (columns df)
        (List.filter (λ r, cell_isin ["CRITICAL"; "High"] (cell_at r "Priority"))
           (rows df))
  ∧ body (schedule b)
    = project
        (valid_columns
           ["state"; "district"; "Priority"; "assi"; "future_mbu_demand";
            "District_Playbook"; "Preparedness_Index"] (body (export b)))
        (body (export b)).
Proof.
  unfold tab4_board. intros H.
  apply bind_Ok_inv in H as (chart & _ & H).
  apply bind_Ok_inv in H as (priority & Hp & H).
  apply getcol_Ok in Hp as [Hin ->].
  split; [exact Hin|].
  apply bind_Ok_inv in H as (plan & Hplan & H). injection H as <-.
  cbn [export schedule body].
  assert (Hbody : body plan
                  = mkDF (columns df)
                      (List.filter
                         (λ r, cell_isin ["CRITICAL"; "High"] (cell_at r "Priority"))
                         (rows df))).
  { rewrite map_map in Hplan. unfold select in Hplan. rewrite mask_select_map in Hplan.
    destruct (decide _) in Hplan.
    - unfold sort_values in Hplan. apply bind_Ok_inv in Hplan as (? & _ & Hplan).
      injection Hplan as <-. reflexivity.
    - injection Hplan as <-. reflexivity. }
  split; [exact Hbody|reflexivity].
Qed.

Lemma filter_length_le {A} (p q : A → bool) (l : list A) :
  (∀ x, p x = true → q x = true) →
  (length (List.filter p l) ≤ length (List.filter q l))%nat.
Proof.
  intros Hpq. induction l as [|x l IH]; simpl; [lia|].
  destruct (p x) eqn:Hp.
  - rewrite (Hpq x Hp). simpl. lia.
  - destruct (q x); simpl; lia.
Qed.

Lemma critical_isin c :
  cell_eqb_str "CRITICAL" c = true → cell_isin ["CRITICAL"; "High"] c = true.
Proof.
  destruct c as [x|n|t]; simpl; try discriminate.
  rewrite !bool_decide_eq_true. intros ->. constructor.
Qed.

(** The banner of the card and the membership in the plan test the same
    thing: a priority is CRITICAL or High exactly when its banner is not the
    green one. *)
Lemma isin_banner c :
  cell_isin ["CRITICAL"; "High"] c = true ↔ priority_banner c ≠ SuccessBanner.
Proof.
  unfold priority_banner. destruct c as [x|n|t]; simpl;
    try (split; [discriminate|congruence]).
  rewrite bool_decide_eq_true.
  destruct (bool_decide (t = "CRITICAL")) eqn:H1.
  { apply bool_decide_eq_true in H1 as ->. split; [discriminate|]. intros _. constructor. }
  destruct (bool_decide (t = "High")) eqn:H2.
  { apply bool_decide_eq_true in H2 as ->. split; [discriminate|].
    intros _. constructor. constructor. }
  apply bool_decide_eq_false in H1, H2. split; [|congruence].
  intros Hin. apply list_elem_of_In in Hin. simpl in Hin.
  destruct Hin as [<-|[<-|[]]]; congruence.
Qed.

(** The plan of tab 4 against the overview and the card: on a page that was
    rendered, every critical hotspot counted in the overview is a row of the
    exported plan, the table on the page has as many rows as the export, and
    the rows of the plan are the rows of the frame whose card would carry a
    red or an orange banner. *)
Theorem plan_holds_the_critical_districts (lib : library) (df : DataFrame)
    (msg : sidebar_msg) (d : string) (p : page) :
  render lib df msg d = Ok p →
  (critical_count (overview p) ≤ nrows (body (export (execution_board p))))%nat
  ∧ nrows (body (schedule (execution_board p)))
    = nrows (body (export (execution_board p)))
  ∧ ∃ df1,
      tab1_charts df = Ok df1
      ∧ ∀ r : Row,
          In r (rows (body (export (execution_board p))))
          ↔ In r (rows df1)
            ∧ priority_banner (cell_at r "Priority") ≠ SuccessBanner.
Proof.
  intros H. apply render_Ok_inv in H as (m & df1 & t2 & t3 & t4 & Hm & Hc & _ & _ & H4 & ->).
  cbn [execution_board overview].
  apply tab4_board_Ok_inv in H4 as (Hin1 & Hexp & Hsched).
  rewrite Hsched, project_nrows. split; [|split; [reflexivity|]].
  - unfold tab1_metrics in Hm.
    apply bind_Ok_inv in Hm as (priority & Hp & Hm).
    apply bind_Ok_inv in Hm as (assi & _ & Hm).
    apply bind_Ok_inv in Hm as (mbu & _ & Hm).
    apply bind_Ok_inv in Hm as (status & _ & Hm).
    injection Hm as <-. cbn [critical_count].
    assert (Hp1 : getcol "Priority" df1 = Ok priority).
    { rewrite (tab1_charts_getcol df df1 _ Hc); [exact Hp|].
      apply getcol_Ok in Hp. tauto. }
    rewrite <- (select_nrows _ df df1);
      [|eapply tab1_charts_nrows; eassumption
       |rewrite length_map; eapply getcol_length; eassumption].
    apply getcol_Ok in Hp1 as [_ ->].
    rewrite Hexp. unfold nrows, select. cbn [rows].
    rewrite map_map, mask_select_map.
    apply filter_length_le. intros r. apply critical_isin.
  - exists df1. split; [exact Hc|]. intros r. rewrite Hexp. cbn [rows].
    rewrite filter_In, isin_banner. reflexivity.
Qed.

Lemma plan_holds_the_critical_districts_witness :
  ∃ p,
    render sample_library full_sample InfoIncreaseLoad "Idukki" = Ok p
    ∧ (critical_count (overview p) ≤ nrows (body (export (execution_board p))))%nat
    ∧ nrows (body (schedule (execution_board p)))
      = nrows (body (export (execution_board p)))
    ∧ ∃ df1,
        tab1_charts full_sample = Ok df1
        ∧ ∀ r : Row,
            In r (rows (body (export (execution_board p))))
            ↔ In r (rows df1)
              ∧ priority_banner (cell_at r "Priority") ≠ SuccessBanner.
Proof.
  eexists. split; [vm_compute; reflexivity|].
  exact (plan_holds_the_critical_districts sample_library full_sample InfoIncreaseLoad
           "Idukki" _ eq_refl).
Defined.

(** Line 138 writes into the frame that the later tabs read: when the file
    has no [district_type] column, the plan exported by tab 4 has one, and
    every row of it says "Unknown". *)
Theorem export_carries_district_type (lib : library) (df : DataFrame)
    (msg : sidebar_msg) (d : string) (p : page) :
  "district_type" ∉ columns df →
  render lib df msg d = Ok p →
  "district_type" ∈ columns (body (export (execution_board p)))
  ∧ Forall (λ r : Row, r !! "district_type" = Some (CStr "Unknown"))
      (rows (body (export (execution_board p)))).
Proof.
  intros Hout H.
  apply render_Ok_inv in H as (m & df1 & t2 & t3 & t4 & _ & Hc & _ & _ & H4 & ->).
  cbn [execution_board].
  apply tab4_board_Ok_inv in H4 as (_ & -> & _). cbn [columns rows].
  apply tab1_charts_Ok_inv in Hc as [[Hin _]|[_ ->]]; [contradiction|].
  split.
  - simpl. rewrite decide_False by assumption. apply elem_of_app. right. constructor.
  - apply Forall_forall. intros r Hr. apply list_elem_of_In, filter_In in Hr as [Hr _].
    apply list_elem_of_In in Hr. simpl in Hr.
    apply list_elem_of_lookup in Hr as [i Hr].
    apply lookup_zip_with_Some in Hr as (r0 & v & -> & _ & Hv).
    apply lookup_replicate in Hv as [-> _]. apply lookup_insert_eq.
Qed.

Lemma export_carries_district_type_witness :
  ∃ p,
    (("district_type" ∉ columns full_sample)
     ∧ render sample_library full_sample InfoIncreaseLoad "Idukki" = Ok p)
    ∧ "district_type" ∈ columns (body (export (execution_board p)))
    ∧ Forall (λ r : Row, r !! "district_type" = Some (CStr "Unknown"))
        (rows (body (export (execution_board p)))).
Proof.
  assert (Hout : "district_type" ∉ columns full_sample) by column_absent.
  eexists. split; [split; [exact Hout|vm_compute; reflexivity]|].
  exact (export_carries_district_type sample_library full_sample InfoIncreaseLoad
           "Idukki" _ Hout eq_refl).
Defined.

(** ** The loader, again *)

Lemma zip_with_map_self {A B C} (h : A → B → C) (g : A → B) (l : list A) :
  zip_with h l (map g l) = map (λ x, h x (g x)) l.
Proof. induction l as [|x l IH]; simpl; [reflexivity|]. rewrite IH. reflexivity. Qed.

(** Writing back the column that a frame holds changes nothing. *)
Lemma setcol_same c df :
  c ∈ columns df → Forall (λ r : Row, is_Some (r !! c)) (rows df) →
  setcol c (map (λ r, cell_at r c) (rows df)) df = df.
Proof.
  intros Hin Hall. destruct df as [cols rs]. unfold setcol. simpl in *.
  rewrite decide_True by assumption. f_equal.
  rewrite zip_with_map_self. induction Hall as [|r rs [v Hv] _ IH]; simpl; [reflexivity|].
  rewrite IH. f_equal. unfold cell_at. rewrite Hv. simpl. apply insert_id. exact Hv.
Qed.

(** After the loader every region name is text. *)
Lemma load_data_state_text lib raw df :
  load_data lib (Some raw) = Ok df →
  "state" ∈ columns df
  ∧ nrows df = nrows raw
  ∧ ∃ states, getcol "state" df = Ok (map CStr states).
Proof.
  intros H.
  assert (Hin : "state" ∈ columns raw).
  { unfold load_data in H. destruct (getcol "state" raw) eqn:E; try discriminate H.
    apply getcol_Ok in E. tauto. }
  rewrite (load_data_Ok _ _ Hin) in H. injection H as <-.
  split; [rewrite setcol_columns; assumption|].
  split; [apply setcol_nrows; rewrite length_map; reflexivity|].
  exists (map (λ r, clean_state lib (astype_str lib (cell_at r "state"))) (rows raw)).
  rewrite getcol_setcol by (rewrite length_map; reflexivity).
  rewrite map_map. reflexivity.
Qed.

(** Loading is idempotent on ASCII region names: a file that was written
    from a loaded frame loads to the same frame. *)
Theorem load_data_idempotent (lib : library) (raw df : DataFrame) :
  ascii_text lib →
  Forall (λ r : Row, AsciiText.is_ascii (astype_str lib (cell_at r "state")) = true)
    (rows raw) →
  load_data lib (Some raw) = Ok df →
  load_data lib (Some df) = Ok df.
Proof.
  intros Hlib Hascii H.
  assert (Hin : "state" ∈ columns raw).
  { unfold load_data in H. destruct (getcol "state" raw) eqn:E; try discriminate H.
    apply getcol_Ok in E. tauto. }
  rewrite (load_data_Ok _ _ Hin) in H. injection H as <-.
  set (f := λ r : Row, CStr (clean_state lib (astype_str lib (cell_at r "state")))).
  set (df := setcol "state" (map f (rows raw)) raw).
  assert (Hin' : "state" ∈ columns df) by (unfold df; rewrite setcol_columns; assumption).
  rewrite (load_data_Ok _ _ Hin'). f_equal.
  assert (Hrows : rows df = map (λ r, <["state" := f r]> r) (rows raw)).
  { unfold df. simpl. apply zip_with_map_self. }
  rewrite <- (setcol_same "state" df Hin') at 3.
  - f_equal. rewrite Hrows, !map_map. apply map_ext_in. intros r Hr.
    unfold cell_at. rewrite !lookup_insert_eq. simpl.
    unfold f. simpl. rewrite clean_state_idempotent; [reflexivity|exact Hlib|].
    rewrite Forall_forall in Hascii. apply Hascii, list_elem_of_In, Hr.
  - rewrite Hrows. apply Forall_forall. intros r Hr.
    apply list_elem_of_In, in_map_iff in Hr as (r0 & <- & _).
    rewrite lookup_insert_eq. eauto.
Qed.

Lemma load_data_idempotent_witness :
  (ascii_text sample_library
   ∧ Forall (λ r : Row,
               AsciiText.is_ascii (astype_str sample_library (cell_at r "state")) = true)
       (rows raw_sample)
   ∧ load_data sample_library (Some raw_sample) = Ok sample)
  ∧ load_data sample_library (Some sample) = Ok sample.
Proof.
  assert (Hlib : ascii_text sample_library) by (intros s _; split; reflexivity).
  assert (Hascii : Forall (λ r : Row,
                             AsciiText.is_ascii
                               (astype_str sample_library (cell_at r "state")) = true)
                     (rows raw_sample))
    by (repeat constructor).
  assert (H : load_data sample_library (Some raw_sample) = Ok sample)
    by (vm_compute; reflexivity).
  split; [split; [exact Hlib|split; [exact Hascii|exact H]]|].
  exact (load_data_idempotent sample_library raw_sample sample Hlib Hascii H).
Defined.

Module CaseFacts.
Import AsciiText.

Lemma title_from_step b c s :
  title_from b (String c s) = String (title_char b c) (title_from (cased c) s).
Proof.
  unfold title_char, cased. simpl.
  destruct (is_lower c); [reflexivity|]. destruct (is_upper c); reflexivity.
Qed.

Lemma cased_to_lower c : cased (to_lower c) = cased c.
Proof. AsciiFacts.by_cases_on_char c. Qed.

Lemma title_char_to_lower b c : title_char b (to_lower c) = title_char b c.
Proof. destruct b; AsciiFacts.by_cases_on_char c. Qed.

(** [title] looks at the letters, not at their case. *)
Lemma title_from_lower b s : title_from b (lower s) = title_from b s.
Proof.
  revert b. induction s as [|c s IH]; intros b; [reflexivity|].
  change (lower (String c s)) with (String (to_lower c) (lower s)).
  rewrite !title_from_step, title_char_to_lower, cased_to_lower, IH. reflexivity.
Qed.

End CaseFacts.

(** Two raw region names in ASCII that are the same once trimmed and put in
    lower case are cleaned to the same name, so that their rows fall in the
    same region. *)
Theorem cleaning_ignores_case_and_padding (lib : library) (s t : string) :
  ascii_text lib →
  AsciiText.is_ascii s = true → AsciiText.is_ascii t = true →
  AsciiText.lower (AsciiText.strip s) = AsciiText.lower (AsciiText.strip t) →
  clean_state lib s = clean_state lib t.
Proof.
  intros Hlib Hs Ht H. rewrite !clean_state_ascii by assumption.
  unfold AsciiText.title.
  rewrite <- (CaseFacts.title_from_lower false (AsciiText.strip s)), H,
    CaseFacts.title_from_lower.
  reflexivity.
Qed.

Lemma cleaning_ignores_case_and_padding_witness :
  (ascii_text sample_library
   ∧ AsciiText.is_ascii "  WEST bengal " = true
   ∧ AsciiText.is_ascii "West Bengal" = true
   ∧ AsciiText.lower (AsciiText.strip "  WEST bengal ")
     = AsciiText.lower (AsciiText.strip "West Bengal"))
  ∧ clean_state sample_library "  WEST bengal " = clean_state sample_library "West Bengal".
Proof.
  assert (Hlib : ascii_text sample_library) by (intros s _; split; reflexivity).
  split; [split; [exact Hlib|repeat split]|].
  exact (cleaning_ignores_case_and_padding sample_library "  WEST bengal " "West Bengal"
           Hlib eq_refl eq_refl eq_refl).
Defined.

(** ** The select boxes *)

Lemma elem_of_unique_from seen l x :
  x ∈ unique_from seen l ↔ x ∈ l ∧ x ∉ seen.
Proof.
  revert seen. induction l as [|y l IH]; intros seen; simpl.
  - split; [intros H; inversion H|intros [H _]; inversion H].
  - destruct (decide (y ∈ seen)) as [Hy|Hy].
    + rewrite IH, elem_of_cons. split; [tauto|].
      intros [[->|H] Hx]; [contradiction|tauto].
    + rewrite !elem_of_cons, IH, elem_of_cons.
      split; [intros [->|[H1 H2]]; tauto|].
      intros [[->|H] Hx]; [tauto|].
      destruct (decide (x = y)); [tauto|]. right. tauto.
Qed.

Lemma NoDup_unique_from seen l : NoDup (unique_from seen l).
Proof.
  revert seen. induction l as [|y l IH]; intros seen; simpl; [constructor|].
  destruct (decide (y ∈ seen)); [apply IH|].
  constructor; [|apply IH].
  rewrite elem_of_unique_from, elem_of_cons. tauto.
Qed.

Lemma elem_of_unique l x : x ∈ unique l ↔ x ∈ l.
Proof.
  unfold unique. rewrite elem_of_unique_from. split; [tauto|].
  intros H. split; [exact H|]. intros H'. inversion H'.
Qed.

Lemma elem_of_sorted l x : x ∈ sorted l ↔ x ∈ l.
Proof. unfold sorted. rewrite merge_sort_Permutation. reflexivity. Qed.

Lemma sorted_unique_strict l :
  StronglySorted (≤)%string (sorted (unique l)) ∧ NoDup (sorted (unique l)).
Proof.
  split.
  - apply StronglySorted_merge_sort; apply _.
  - unfold sorted. rewrite merge_sort_Permutation. apply NoDup_unique_from.
Qed.

Lemma cell_at_text (r : Row) c s : cell_at r c = CStr s ↔ r !! c = Some (CStr s).
Proof.
  unfold cell_at. destruct (r !! c) as [v|]; simpl; [|split; discriminate].
  split; congruence.
Qed.

Lemma row_state_Some (r : Row) s : row_state r = Some s ↔ r !! "state" = Some (CStr s).
Proof.
  unfold row_state. destruct (r !! "state") as [[x|n|t]|]; split; congruence.
Qed.

(** The names of a text column are the names of its rows. *)
Lemma getcol_text_elem c df names s :
  getcol c df = Ok (map CStr names) →
  s ∈ names ↔ ∃ r : Row, r ∈ rows df ∧ r !! c = Some (CStr s).
Proof.
  intros H. apply getcol_Ok in H as [_ H]. split.
  - intros Hs. assert (Hin : CStr s ∈ map CStr names)
      by (apply list_elem_of_In, in_map, list_elem_of_In, Hs).
    rewrite H in Hin. apply list_elem_of_In, in_map_iff in Hin as (r & Hr & Hin).
    exists r. split; [apply list_elem_of_In, Hin|apply cell_at_text, Hr].
  - intros (r & Hr & Hc). apply cell_at_text in Hc.
    assert (Hin : CStr s ∈ map (λ r : Row, cell_at r c) (rows df)).
    { apply list_elem_of_In, in_map_iff. exists r. split; [exact Hc|].
      apply list_elem_of_In, Hr. }
    rewrite <- H in Hin. apply list_elem_of_In, in_map_iff in Hin as (s' & [= ->] & Hin).
    apply list_elem_of_In, Hin.
Qed.

(** The region select box, on the frame the loader returns: after "All
    India" it offers every region name of the frame once, in increasing
    order, and nothing else; every name it offers other than "All India"
    selects a view with at least one row, all of that region; and "All
    India" selects every row, also when a region of the frame is called
    so. *)
Theorem region_options_cover_the_frame (lib : library) (raw df : DataFrame) :
  load_data lib (Some raw) = Ok df →
  ∃ states,
    getcol "state" df = Ok (map CStr states)
    ∧ (∀ s, s ∈ region_options states
            ↔ s = all_india ∨ ∃ r : Row, r ∈ rows df ∧ row_state r = Some s)
    ∧ StronglySorted (≤)%string (tail (region_options states))
    ∧ NoDup (tail (region_options states))
    ∧ (∀ s, s ∈ region_options states → s ≠ all_india →
            ∃ view, region_view df s = Ok view
                    ∧ (0 < nrows view)%nat
                    ∧ Forall (λ r, row_state r = Some s) (rows view))
    ∧ region_view df all_india = Ok df.
Proof.
  intros H. apply load_data_state_text in H as (Hin & _ & states & Hcol).
  exists states. split; [exact Hcol|].
  assert (Hmem : ∀ s, s ∈ region_options states
                      ↔ s = all_india ∨ ∃ r : Row, r ∈ rows df ∧ row_state r = Some s).
  { intros s. unfold region_options.
    rewrite elem_of_cons, elem_of_sorted, elem_of_unique,
      (getcol_text_elem _ _ _ s Hcol).
    setoid_rewrite row_state_Some. reflexivity. }
  split; [exact Hmem|].
  split; [apply sorted_unique_strict|]. split; [apply sorted_unique_strict|].
  split; [|reflexivity].
  intros s Hs Hne. apply Hmem in Hs as [->|(r & Hr & Hst)]; [contradiction|].
  exists (region_rows s df). split; [apply region_view_selected; assumption|].
  split.
  - assert (Hin' : In r (rows (region_rows s df))).
    { unfold region_rows. simpl. apply filter_In. split; [apply list_elem_of_In, Hr|].
      apply region_is, row_state_Some, Hst. }
    unfold nrows. destruct (rows (region_rows s df)); [destruct Hin'|simpl; lia].
  - apply Forall_forall. intros r' Hr'. unfold region_rows in Hr'. simpl in Hr'.
    apply list_elem_of_In, filter_In in Hr' as [_ Hr'].
    apply row_state_Some, region_is, Hr'.
Qed.

Lemma region_options_cover_the_frame_witness :
  load_data sample_library (Some raw_sample) = Ok sample
  ∧ region_options ["Odisha"; "Kerala"; "Kerala"] = ["All India"; "Kerala"; "Odisha"]
  ∧ ∃ states,
      getcol "state" sample = Ok (map CStr states)
      ∧ (∀ s, s ∈ region_options states
              ↔ s = all_india ∨ ∃ r : Row, r ∈ rows sample ∧ row_state r = Some s)
      ∧ StronglySorted (≤)%string (tail (region_options states))
      ∧ NoDup (tail (region_options states))
      ∧ (∀ s, s ∈ region_options states → s ≠ all_india →
              ∃ view, region_view sample s = Ok view
                      ∧ (0 < nrows view)%nat
                      ∧ Forall (λ r, row_state r = Some s) (rows view))
      ∧ region_view sample all_india = Ok sample.
Proof.
  assert (H : load_data sample_library (Some raw_sample) = Ok sample)
    by (vm_compute; reflexivity).
  split; [exact H|]. split; [vm_compute; reflexivity|].
  exact (region_options_cover_the_frame sample_library raw_sample sample H).
Defined.

Lemma first_match_split {A} (p : A → bool) (l : list A) x :
  In x l → p x = true →
  ∃ pre y post, l = (pre ++ y :: post)%list ∧ p y = true
                ∧ List.filter p pre = [].
Proof.
  induction l as [|z l IH]; intros Hin Hp; [destruct Hin|].
  destruct (p z) eqn:Hz.
  - exists [], z, l. auto.
  - destruct Hin as [->|Hin]; [congruence|].
    destruct (IH Hin Hp) as (pre & y & post & -> & Hy & Hpre).
    exists (z :: pre), y, post. simpl. rewrite Hz. auto.
Qed.

(** ** The progress bar and the colours of the score *)

Module DivFacts.

Lemma binary_round_aux_sign sx mx ex lx :
  (0 <= mx)%Z -> SFsign_is sx (binary_round_aux prec emax sx mx ex lx).
Proof.
  intros H. unfold binary_round_aux.
  pose proof (FloatFacts.shr_fexp_nonneg mx ex lx H) as H1.
  destruct (shr_fexp prec emax mx ex lx) as [mrs' e']. simpl in H1.
  pose proof (FloatFacts.shr_fexp_nonneg _ e' loc_Exact
                (FloatFacts.round_nearest_even_nonneg _ (loc_of_shr_record mrs') H1))
    as H2.
  destruct (shr_fexp prec emax _ e' loc_Exact) as [mrs'' e'']. simpl in H2.
  destruct (shr_m mrs''); try lia; simpl; [reflexivity|].
  destruct (_ <=? _)%Z; reflexivity.
Qed.

Lemma SFdiv_core_binary_nonneg mx ex my ey :
  (0 <= fst (fst (SFdiv_core_binary prec emax (Zpos mx) ex (Zpos my) ey)))%Z.
Proof.
  unfold SFdiv_core_binary.
  set (s := (ex - ey - _)%Z).
  set (m' := match s with Z0 => Zpos mx | Zpos _ => Z.shiftl (Zpos mx) s | Zneg _ => 0%Z end).
  assert (Hm : (0 <= m')%Z).
  { unfold m'. destruct s; try lia. apply Z.shiftl_nonneg. lia. }
  pose proof (Z.div_pos m' (Zpos my) Hm ltac:(lia)) as Hq.
  unfold Z.div in Hq. destruct (Z.div_eucl m' (Zpos my)) as [q r]. exact Hq.
Qed.

(** A number that is not negative, divided by a finite positive number, is
    not negative. *)
Lemma SFdiv_nonneg x my ey :
  SFleb (S754_zero false) x = true ->
  SFleb (S754_zero false) (SF64div x (S754_finite false my ey)) = true.
Proof.
  destruct x as [s|s| |s mx ex]; simpl; try discriminate.
  - intros _. reflexivity.
  - destruct s; [discriminate|reflexivity].
  - destruct s; [discriminate|]. intros _.
    unfold SF64div, SFdiv.
    pose proof (SFdiv_core_binary_nonneg mx ex my ey) as Hq.
    destruct (SFdiv_core_binary prec emax (Zpos mx) ex (Zpos my) ey) as [[mz ez] lz].
    simpl in Hq. pose proof (binary_round_aux_sign (xorb false false) mz ez lz Hq) as Hs.
    destruct (binary_round_aux prec emax (xorb false false) mz ez lz) as [s|s| |s m e];
      simpl in Hs; try contradiction; subst s; reflexivity.
Qed.

Lemma div_nonneg (x c : float) my ey :
  Prim2SF c = S754_finite false my ey ->
  (0 <=? x)%float = true -> (0 <=? x / c)%float = true.
Proof.
  rewrite !leb_spec, div_spec. intros ->. apply SFdiv_nonneg.
Qed.

Lemma leb_not_nan (x y : float) : (x <=? y)%float = true -> is_nan y = false.
Proof.
  rewrite leb_spec. intros H. apply FloatFacts.SFleb_not_nan in H as [_ H].
  apply FloatFacts.is_nan_false. exact H.
Qed.

Lemma ltb_nan_l (c : float) : (nan <? c)%float = false.
Proof. rewrite ltb_spec. reflexivity. Qed.

End DivFacts.

(** The value handed to the progress bar is between 0.0 and 1.0 for every
    district whose stress is a number that is not negative, however large. *)
Theorem progress_value_in_range (stress : cell) (x : float) :
  cell_float stress = Ok x →
  (0 <=? x)%float = true →
  ∃ v, progress_value stress = Ok v ∧ PyFloat.le 0 v ∧ PyFloat.le v 1.
Proof.
  intros Hc Hx. unfold progress_value. rewrite Hc. cbn [mbind outcome_bind].
  eexists. split; [reflexivity|].
  assert (Ha : (0 <=? x / 5)%float = true)
    by (eapply DivFacts.div_nonneg; [reflexivity|exact Hx]).
  unfold PyFloat.py_min, PyFloat.le.
  destruct (1 <? x / 5)%float eqn:Hlt; [split; reflexivity|].
  split; [exact Ha|].
  rewrite (FloatFacts.leb_negb_ltb 1 (x / 5)), Hlt; [reflexivity|reflexivity|].
  eapply DivFacts.leb_not_nan. exact Ha.
Qed.

Lemma progress_value_in_range_witness :
  (cell_float (CFloat 12) = Ok 12%float ∧ (0 <=? 12)%float = true)
  ∧ progress_value (CFloat 12) = Ok 1%float
  ∧ ∃ v, progress_value (CFloat 12) = Ok v ∧ PyFloat.le 0 v ∧ PyFloat.le v 1.
Proof.
  split; [split; reflexivity|]. split; [reflexivity|].
  exact (progress_value_in_range (CFloat 12) 12 eq_refl eq_refl).
Defined.

(** The two colour scales agree on the worst class and differ on missing
    data.  A score is red on the card exactly when its bar is dark red on the
    board.  When the frame has no [Preparedness_Index] column the card shows
    the default score 0 in red; a score that is missing in its row (NaN) is
    green on the card and has the mildest colour on the board, since it is
    below no threshold. *)
Theorem score_colours_on_missing_data (df : DataFrame) (d_data : Row) (score : cell) :
  "Preparedness_Index" ∉ columns df →
  card_score_color df d_data = Ok (CInt 0, "#FF4B4B")
  ∧ (card_color score = Ok "#FF4B4B" ↔ get_color score = Ok "#8b0000")
  ∧ card_color (CFloat nan) = Ok "#00CC96"
  ∧ get_color (CFloat nan) = Ok "#fdcb6e".
Proof.
  intros Hout. split.
  { unfold card_score_color. rewrite row_get_absent by assumption. reflexivity. }
  split; [|split; reflexivity].
  unfold card_color, get_color.
  destruct (cell_lt_int score 40) as [[]| |]; cbn [mbind outcome_bind].
  - tauto.
  - destruct (cell_lt_int score 70) as [[]| |], (cell_lt_int score 50) as [[]| |];
      cbn [mbind outcome_bind]; split; discriminate.
  - split; discriminate.
  - split; discriminate.
Qed.

Lemma score_colours_on_missing_data_witness :
  ("Preparedness_Index" ∉ columns sample)
  ∧ card_score_color sample (district_row "Kerala" "Idukki" 6 "CRITICAL" "Normal" 800)
    = Ok (CInt 0, "#FF4B4B")
  ∧ (card_color (CFloat 35.5) = Ok "#FF4B4B" ↔ get_color (CFloat 35.5) = Ok "#8b0000")
  ∧ card_color (CFloat nan) = Ok "#00CC96"
  ∧ get_color (CFloat nan) = Ok "#fdcb6e".
Proof.
  assert (Hout : "Preparedness_Index" ∉ columns sample) by column_absent.
  split; [exact Hout|].
  exact (score_colours_on_missing_data sample _ (CFloat 35.5) Hout).
Defined.

(** ** The simulator and the region filter *)

(** Filtering the rows on their region and overwriting their stress, one row
    at a time, can be done in either order. *)
Lemma filter_overwrite_commute sel (g : float → float) (rs : list Row) xs :
  traverse cell_float (map (λ r, cell_at r "assi") rs) = Ok xs →
  ∃ xs',
    traverse cell_float
      (map (λ r, cell_at r "assi")
         (List.filter (λ r, cell_eqb_str sel (cell_at r "state")) rs)) = Ok xs'
    ∧ List.filter (λ r, cell_eqb_str sel (cell_at r "state"))
        (zip_with (λ r v, <["assi" := v]> r) rs (map CFloat (map g xs)))
      = zip_with (λ r v, <["assi" := v]> r)
          (List.filter (λ r, cell_eqb_str sel (cell_at r "state")) rs)
          (map CFloat (map g xs')).
Proof.
  revert xs. induction rs as [|r rs IH]; intros xs; simpl.
  - intros [= <-]. exists []. split; reflexivity.
  - destruct (cell_float (cell_at r "assi")) as [x| |] eqn:Hx; simpl; try discriminate.
    destruct (traverse cell_float (map (λ r, cell_at r "assi") rs)) as [xs0| |] eqn:Ht;
      simpl; try discriminate.
    intros [= <-]. destruct (IH xs0 eq_refl) as (xs' & Ht' & Hf).
    assert (Hst : cell_at (<["assi" := CFloat (g x)]> r) "state" = cell_at r "state").
    { unfold cell_at. rewrite lookup_insert_ne by discriminate. reflexivity. }
    simpl. rewrite Hst.
    destruct (cell_eqb_str sel (cell_at r "state")); simpl.
    + rewrite Hx, Ht'. simpl. exists (x :: xs'). split; [reflexivity|].
      simpl. rewrite Hf. reflexivity.
    + exists xs'. split; assumption.
Qed.

Lemma region_rows_setcol sel (g : float → float) df xs :
  stress_column df = Ok xs →
  ∃ xs',
    stress_column (region_rows sel df) = Ok xs'
    ∧ region_rows sel (setcol "assi" (map CFloat (map g xs)) df)
      = setcol "assi" (map CFloat (map g xs')) (region_rows sel df).
Proof.
  intros H. apply stress_column_Ok in H as (col & Hcol & Ht & _).
  apply getcol_Ok in Hcol as [Hin ->].
  destruct (filter_overwrite_commute sel g (rows df) xs Ht) as (xs' & Ht' & Hf).
  exists xs'. split.
  - unfold stress_column. rewrite getcol_present by exact Hin. exact Ht'.
  - unfold region_rows, setcol. simpl. rewrite decide_True by assumption.
    f_equal. exact Hf.
Qed.

(** The simulator works row by row, so it commutes with the region filter:
    simulating the view of a region gives the rows of that region in the
    simulated frame.  A district's simulated stress is the same in its
    region's view and in the view of all India. *)
Theorem simulate_commutes_with_region_filter (mode : sim_mode) (df : DataFrame)
    (xs : list float) (sel : string) :
  stress_column df = Ok xs →
  ∃ df' msg msg',
    simulate mode df = Ok (df', msg)
    ∧ simulate mode (region_rows sel df) = Ok (region_rows sel df', msg').
Proof.
  intros Hs. destruct mode as [m|k s].
  - destruct (PyFloat.gtb m 1) eqn:Hm.
    + destruct (region_rows_setcol sel (λ x, x * m)%float df xs Hs) as (xs' & Hs' & Heq).
      eexists _, _, _. split; [apply simulate_stress_test; eassumption|].
      rewrite Heq. apply simulate_stress_test; assumption.
    + eexists _, _, _. split; apply simulate_stress_test_idle; assumption.
  - destruct ((0 <? k)%Z || (0 <? s)%Z) eqn:Hks.
    + destruct (region_rows_setcol sel
                  (λ x, clip_lower stress_floor (x * (1 - impact k s))%float) df xs Hs)
        as (xs' & Hs' & Heq).
      eexists _, _, _. split; [apply simulate_relief; eassumption|].
      rewrite !map_map. rewrite !map_map in Heq. rewrite Heq.
      rewrite (simulate_relief _ k s xs' Hks Hs'). rewrite !map_map. reflexivity.
    + eexists _, _, _. split; apply simulate_relief_idle; assumption.
Qed.

Lemma simulate_commutes_with_region_filter_witness :
  stress_column sample = Ok [3; 6; 0.05]%float
  ∧ ∃ df' msg msg',
      simulate (DeploySolutions 10 50) sample = Ok (df', msg)
      ∧ simulate (DeploySolutions 10 50) (region_rows "Kerala" sample)
        = Ok (region_rows "Kerala" df', msg').
Proof.
  split; [reflexivity|].
  exact (simulate_commutes_with_region_filter (DeploySolutions 10 50) sample
           [3; 6; 0.05]%float "Kerala" eq_refl).
Defined.

(** ** Collapsed districts, region by region *)

Section Counting.
Context {K A : Type} `{EqDecision K}.
Implicit Types (ps : list (K * A)) (keys : list K) (q : A → bool).

Lemma sum_list_map_add (f g : K → nat) keys :
  sum_list (map (λ k, f k + g k)%nat keys)
  = (sum_list (map f keys) + sum_list (map g keys))%nat.
Proof. induction keys as [|k keys IH]; simpl; [reflexivity|]. rewrite IH. lia. Qed.

Lemma sum_list_indicator (a : K) (c : nat) keys :
  NoDup keys → a ∈ keys →
  sum_list (map (λ k, if decide (a = k) then c else 0%nat) keys) = c.
Proof.
  induction 1 as [|k keys Hk Hnd IH]; intros Ha; [inversion Ha|].
  simpl. destruct (decide (a = k)) as [->|Hne].
  - assert (H0 : sum_list (map (λ k', if decide (k = k') then c else 0%nat) keys) = 0%nat).
    { clear IH Ha. induction keys as [|k' keys IH']; simpl; [reflexivity|].
      apply not_elem_of_cons in Hk as [Hne Hk]. apply NoDup_cons in Hnd as [_ Hnd].
      rewrite decide_False by assumption. apply IH'; assumption. }
    rewrite H0. lia.
  - apply elem_of_cons in Ha as [->|Ha]; [contradiction|]. rewrite (IH Ha). reflexivity.
Qed.

(** Counting over a list is counting over its classes. *)
Lemma count_by_key q ps keys :
  NoDup keys → Forall (λ p, p.1 ∈ keys) ps →
  length (List.filter q (map snd ps))
  = sum_list
      (map (λ k, length (List.filter q
                           (map snd (List.filter (λ p, bool_decide (p.1 = k)) ps))))
         keys).
Proof.
  intros Hnd. induction 1 as [|[a x] ps Ha _ IH]; simpl.
  - induction keys as [|k keys IHk]; simpl; [reflexivity|].
    apply NoDup_cons in Hnd as [_ Hnd]. rewrite <- IHk by assumption. reflexivity.
  - rewrite (map_ext _
      (λ k, ((if decide (a = k) then (if q x then 1 else 0) else 0)
             + length (List.filter q
                         (map snd (List.filter (λ p, bool_decide (p.1 = k)) ps))))%nat)).
    + rewrite sum_list_map_add, (sum_list_indicator a _ keys Hnd Ha), <- IH.
      destruct (q x); reflexivity.
    + intros k. simpl. destruct (decide (a = k)) as [->|Hne].
      * rewrite bool_decide_eq_true_2 by reflexivity. simpl.
        destruct (q x); reflexivity.
      * rewrite bool_decide_eq_false_2 by assumption. reflexivity.
Qed.

End Counting.

(** The stress of the rows of one region, read off the regions and the
    stress of all the rows. *)
Lemma stress_column_region sel (rs : list Row) states xs :
  map (λ r, cell_at r "state") rs = map CStr states →
  traverse cell_float (map (λ r, cell_at r "assi") rs) = Ok xs →
  traverse cell_float
    (map (λ r, cell_at r "assi")
       (List.filter (λ r, cell_eqb_str sel (cell_at r "state")) rs))
  = Ok (map snd (List.filter (λ p, bool_decide (p.1 = sel)) (zip states xs))).
Proof.
  revert states xs. induction rs as [|r rs IH]; intros [|s states] xs; simpl;
    try discriminate.
  - intros _ [= <-]. reflexivity.
  - intros [= Hs Hst].
    destruct (cell_float (cell_at r "assi")) as [x| |] eqn:Hx; simpl; try discriminate.
    destruct (traverse cell_float (map (λ r, cell_at r "assi") rs)) as [xs0| |] eqn:Ht;
      simpl; try discriminate.
    intros [= <-]. simpl. rewrite Hs. simpl.
    specialize (IH states xs0 Hst eq_refl).
    destruct (bool_decide (s = sel)); simpl; rewrite ?Hx, IH; reflexivity.
Qed.

(** When no region is called "All India", the number of collapsed districts
    reported for all India in a stress test is the sum of the numbers
    reported for the regions of the select box. *)
Theorem collapsed_counts_add_up (df : DataFrame) (states : list string)
    (m : float) (xs : list float) :
  getcol "state" df = Ok (map CStr states) →
  all_india ∉ states →
  PyFloat.gtb m 1 = true →
  stress_column df = Ok xs →
  ∃ n counts,
    reported_for (StressTest m) df all_india = Some n
    ∧ Forall2 (λ s c, reported_for (StressTest m) df s = Some c)
        (tail (region_options states)) counts
    ∧ n = sum_list counts.
Proof.
  intros Hst Hno Hm Hs.
  pose proof Hs as Hs0. apply stress_column_Ok in Hs0 as (col & Hcol & Ht & Hlen).
  apply getcol_Ok in Hcol as [Hassi ->]. apply getcol_Ok in Hst as [Hstate Hst].
  set (q := λ y, PyFloat.gtb (y * m) collapse_threshold).
  set (count := λ s : string,
         length (List.filter q (map snd (List.filter (λ p, bool_decide (p.1 = s))
                                           (zip states xs))))).
  assert (Hregion : ∀ s, s ∈ sorted (unique states) →
                         reported_for (StressTest m) df s = Some (count s)).
  { intros s Hin. rewrite elem_of_sorted, elem_of_unique in Hin.
    assert (Hne : s ≠ all_india) by (intros ->; contradiction).
    unfold reported_for. rewrite (region_view_selected df s Hne Hstate).
    cbn [mbind outcome_bind].
    assert (Hv : stress_column (region_rows s df)
                 = Ok (map snd (List.filter (λ p, bool_decide (p.1 = s)) (zip states xs)))).
    { unfold stress_column. rewrite getcol_present by exact Hassi.
      cbn [mbind outcome_bind]. apply stress_column_region; [symmetry; exact Hst|exact Ht]. }
    rewrite (simulate_stress_test _ m _ Hm Hv). simpl. f_equal.
    unfold collapsed, count. rewrite <- (filter_id_map q), <- filter_id_map, map_map.
    reflexivity. }
  exists (sum_list (map count (sorted (unique states)))), (map count (sorted (unique states))).
  split; [|split; [|reflexivity]].
  - unfold reported_for. change (region_view df all_india) with (Ok df).
    cbn [mbind outcome_bind].
    rewrite (simulate_stress_test df m xs Hm Hs). simpl. f_equal.
    unfold collapsed. rewrite <- (filter_id_map (λ y, PyFloat.gtb y collapse_threshold)),
      map_map, (filter_id_map q).
    assert (Hzip : map snd (zip states xs) = xs).
    { apply snd_zip. rewrite Hlen. unfold nrows.
      rewrite <- (length_map CStr states), Hst, length_map. reflexivity. }
    rewrite <- Hzip at 1. apply count_by_key; [apply sorted_unique_strict|].
    apply Forall_forall. intros [s x] Hp. simpl.
    rewrite elem_of_sorted, elem_of_unique. apply list_elem_of_In in Hp.
    apply in_combine_l in Hp. apply list_elem_of_In, Hp.
  - unfold region_options. simpl. apply Forall2_fmap_r, Forall_Forall2_diag.
    apply Forall_forall. intros s Hin. apply Hregion, Hin.
Qed.

Lemma collapsed_counts_add_up_witness :
  (getcol "state" sample = Ok (map CStr ["Odisha"; "Kerala"; "Kerala"])
   ∧ (all_india ∉ ["Odisha"; "Kerala"; "Kerala"])
   ∧ PyFloat.gtb 2 1 = true
   ∧ stress_column sample = Ok [3; 6; 0.05]%float)
  ∧ (tail (region_options ["Odisha"; "Kerala"; "Kerala"]) = ["Kerala"; "Odisha"]
     ∧ reported_for (StressTest 2) sample all_india = Some 2%nat
     ∧ reported_for (StressTest 2) sample "Kerala" = Some 1%nat
     ∧ reported_for (StressTest 2) sample "Odisha" = Some 1%nat)
  ∧ ∃ n counts,
      reported_for (StressTest 2) sample all_india = Some n
      ∧ Forall2 (λ s c, reported_for (StressTest 2) sample s = Some c)
          (tail (region_options ["Odisha"; "Kerala"; "Kerala"])) counts
      ∧ n = sum_list counts.
Proof.
  assert (Hst : getcol "state" sample = Ok (map CStr ["Odisha"; "Kerala"; "Kerala"]))
    by (vm_compute; reflexivity).
  assert (Hno : all_india ∉ ["Odisha"; "Kerala"; "Kerala"]) by column_absent.
  split; [repeat split; (exact Hst || exact Hno || reflexivity)|].
  split; [repeat split; vm_compute; reflexivity|].
  exact (collapsed_counts_add_up sample ["Odisha"; "Kerala"; "Kerala"] 2
           [3; 6; 0.05]%float Hst Hno eq_refl eq_refl).
Defined.

(** ** The simulator on a stress column it cannot scale *)

Lemma traverse_cell_mul_text m (col : list cell) s :
  CStr s ∈ col → traverse (cell_mul m) col = Raise TypeError.
Proof.
  induction col as [|c col IH]; intros Hin; [inversion Hin|].
  simpl. destruct c as [x|n|t]; simpl; try reflexivity;
    (apply elem_of_cons in Hin as [Heq|Hin]; [discriminate Heq|]);
    rewrite (IH Hin); reflexivity.
Qed.

(** As soon as a slider leaves its default, the simulator needs a stress
    column of numbers: without the column the run ends with [KeyError], with
    a text entry in it the run ends with [TypeError], and with numbers only
    the simulator returns a frame. *)
Theorem active_simulation_needs_numeric_stress (mode : sim_mode) (df : DataFrame) :
  at_defaults mode = false →
  ("assi" ∉ columns df → simulate mode df = Raise (KeyError "assi"))
  ∧ (∀ col s, getcol "assi" df = Ok col → CStr s ∈ col →
              simulate mode df = Raise TypeError)
  ∧ (∀ xs, stress_column df = Ok xs → ∃ df' msg, simulate mode df = Ok (df', msg)).
Proof.
  intros Hact. destruct mode as [m|k s]; simpl in Hact;
    apply negb_false_iff in Hact; unfold simulate; rewrite Hact.
  - split; [|split].
    + intros Hno. rewrite getcol_absent by assumption. reflexivity.
    + intros col t Hcol Hin. rewrite Hcol. cbn [mbind outcome_bind].
      rewrite (traverse_cell_mul_text _ _ _ Hin). reflexivity.
    + intros xs Hxs. pose proof (simulate_stress_test df m xs Hact Hxs) as H.
      unfold simulate in H. rewrite Hact in H. eauto.
  - split; [|split].
    + intros Hno. rewrite getcol_absent by assumption. reflexivity.
    + intros col t Hcol Hin. rewrite Hcol. cbn [mbind outcome_bind].
      rewrite (traverse_cell_mul_text _ _ _ Hin). reflexivity.
    + intros xs Hxs. pose proof (simulate_relief df k s xs Hact Hxs) as H.
      unfold simulate in H. rewrite Hact in H. eauto.
Qed.

Lemma active_simulation_needs_numeric_stress_witness :
  at_defaults (StressTest 2) = false
  ∧ simulate (StressTest 2) (drop_column "assi" sample) = Raise (KeyError "assi")
  ∧ simulate (StressTest 2) text_stress_sample = Raise TypeError
  ∧ simulate (StressTest 1) text_stress_sample = Ok (text_stress_sample, InfoIncreaseLoad)
  ∧ ∃ df' msg, simulate (StressTest 2) sample = Ok (df', msg).
Proof.
  split; [reflexivity|].
  destruct (active_simulation_needs_numeric_stress (StressTest 2)
              (drop_column "assi" sample) eq_refl) as (H1 & _ & _).
  destruct (active_simulation_needs_numeric_stress (StressTest 2)
              text_stress_sample eq_refl) as (_ & H2 & _).
  destruct (active_simulation_needs_numeric_stress (StressTest 2) sample eq_refl)
    as (_ & _ & H3).
  split; [apply H1; column_absent|].
  split.
  { apply (H2 (replicate 3 (CStr "n/a")) "n/a"); [vm_compute; reflexivity|constructor]. }
  split; [reflexivity|].
  apply (H3 [3; 6; 0.05]%float). reflexivity.
Defined.

(** ** The district card *)

(** The value handed to the progress bar lies between 0.0 and 1.0 when the
    stress is not negative. *)
Lemma progress_bounds (x : float) :
  (0 <=? x)%float = true →
  (0 <=? PyFloat.py_min (x / 5.0) 1.0)%float = true
  ∧ (PyFloat.py_min (x / 5.0) 1.0 <=? 1)%float = true.
Proof.
  intros Hx.
  assert (Ha : (0 <=? x / 5)%float = true)
    by (eapply DivFacts.div_nonneg; [reflexivity|exact Hx]).
  unfold PyFloat.py_min.
  destruct (1 <? x / 5)%float eqn:Hlt; [split; reflexivity|].
  split; [exact Ha|].
  rewrite (FloatFacts.leb_negb_ltb 1 (x / 5)), Hlt; [reflexivity|reflexivity|].
  eapply DivFacts.leb_not_nan. exact Ha.
Qed.

(** A column of text can be sorted. *)
Lemma sortable_text names : sortable (map CStr names) = Ok ().
Proof.
  unfold sortable.
  assert (H : existsb (λ c, negb (is_text c)) (map CStr names) = false)
    by (induction names as [|s names IH]; simpl; auto).
  rewrite H, andb_false_r. reflexivity.
Qed.

(** The card of tab 3 is the card of the first row, in the order of the
    frame, whose district is the one picked. *)
Lemma tab3_first_match lib df d pre (r : Row) post :
  rows df = (pre ++ r :: post)%list →
  cell_eqb_str d (cell_at r "district") = true →
  List.filter (λ r', cell_eqb_str d (cell_at r' "district")) pre = [] →
  "district" ∈ columns df →
  sortable (map (λ r : Row, cell_at r "district") (rows df)) = Ok () →
  tab3_deep_dive lib df d = tab3_card lib df r.
Proof.
  intros Hrows Hr Hpre Hd Hsort. unfold tab3_deep_dive.
  rewrite (getcol_present _ _ Hd). cbn [mbind outcome_bind].
  rewrite Hsort. cbn [mbind outcome_bind].
  rewrite length_map, Hrows, length_app. simpl length.
  rewrite bool_decide_eq_true_2 by lia.
  unfold select. cbn [rows]. rewrite <- Hrows, map_map, mask_select_map, Hrows.
  rewrite List.filter_app, Hpre. simpl. rewrite Hr. reflexivity.
Qed.

(** A score that is a number has a colour. *)
Lemma card_color_number score :
  is_text score = false → ∃ color, card_color score = Ok color.
Proof.
  unfold card_color. destruct score as [x|n|t]; simpl; [| |discriminate]; intros _.
  - destruct (x <? _)%float; [eauto|]. simpl. destruct (x <? _)%float; eauto.
  - destruct (n <? 40)%Z; [eauto|]. simpl. destruct (n <? 70)%Z; eauto.
Qed.

(** The card of a complete row. *)
Lemma tab3_card_complete lib df (r : Row) n x :
  progress_in_range lib →
  "district" ∈ columns df → "state" ∈ columns df →
  "future_mbu_demand" ∈ columns df → "assi" ∈ columns df →
  is_text (row_get df r "Preparedness_Index" (CInt 0)) = false →
  py_int lib (cell_at r "future_mbu_demand") = Ok n →
  cell_float (cell_at r "assi") = Ok x → (0 <=? x)%float = true →
  ∃ color,
    card_color (row_get df r "Preparedness_Index" (CInt 0)) = Ok color
    ∧ tab3_card lib df r
      = Ok (mkCard (cell_at r "district") (cell_at r "state")
              (row_get df r "Priority" (CStr "Normal"))
              (priority_banner (row_get df r "Priority" (CStr "Normal")))
              (row_get df r "Preparedness_Index" (CInt 0)) color n
              (row_get df r "District_Playbook" (CStr "Maintain Operations"))
              (PyFloat.py_min (x / 5.0) 1.0)).
Proof.
  intros Hlib Hd Hs Hm Ha Hscore Hn Hx Hx0.
  destruct (card_color_number _ Hscore) as [color Hcolor].
  exists color. split; [exact Hcolor|].
  unfold tab3_card, card_score_color.
  rewrite !row_item_present by assumption. cbn [mbind outcome_bind].
  rewrite Hcolor. cbn [mbind outcome_bind]. rewrite Hn. cbn [mbind outcome_bind].
  unfold progress_value. rewrite Hx. cbn [mbind outcome_bind].
  destruct (progress_bounds x Hx0) as [H0 H1].
  unfold st_progress. rewrite (Hlib _ H0 H1). reflexivity.
Qed.

(** A district picked in the select box of tab 3, the district names being
    text, is always found, and the card is computed from the first row of the
    view with that name: when two rows carry the same district name, the
    second cannot be reached, and the run succeeds or fails as the card of
    the first does.  The card is shown when the columns [state],
    [future_mbu_demand] and [assi] exist and, in that row, the score is a
    number or the column is missing, [int] accepts the demand and the stress
    is a number that is not negative, [st.progress] accepting the floats from
    0.0 to 1.0. *)
Theorem district_pick_shows_first_match (lib : library) (df : DataFrame)
    (districts : list string) (d : string) :
  getcol "district" df = Ok (map CStr districts) →
  d ∈ district_options districts →
  ∃ pre (r : Row) post,
    rows df = (pre ++ r :: post)%list
    ∧ r !! "district" = Some (CStr d)
    ∧ Forall (λ r' : Row, r' !! "district" ≠ Some (CStr d)) pre
    ∧ tab3_deep_dive lib df d = tab3_card lib df r
    ∧ (progress_in_range lib →
       "state" ∈ columns df → "future_mbu_demand" ∈ columns df → "assi" ∈ columns df →
       is_text (row_get df r "Preparedness_Index" (CInt 0)) = false →
       ∀ n x,
         py_int lib (cell_at r "future_mbu_demand") = Ok n →
         cell_float (cell_at r "assi") = Ok x → (0 <=? x)%float = true →
         ∃ color,
           card_color (row_get df r "Preparedness_Index" (CInt 0)) = Ok color
           ∧ tab3_deep_dive lib df d
             = Ok (mkCard (CStr d) (cell_at r "state")
                     (row_get df r "Priority" (CStr "Normal"))
                     (priority_banner (row_get df r "Priority" (CStr "Normal")))
                     (row_get df r "Preparedness_Index" (CInt 0)) color n
                     (row_get df r "District_Playbook" (CStr "Maintain Operations"))
                     (PyFloat.py_min (x / 5.0) 1.0))).
Proof.
  intros Hcol Hd.
  assert (Hin : "district" ∈ columns df) by (apply getcol_Ok in Hcol; tauto).
  assert (Hsort : sortable (map (λ r : Row, cell_at r "district") (rows df)) = Ok ()).
  { apply getcol_Ok in Hcol as [_ Hcol]. rewrite <- Hcol. apply sortable_text. }
  unfold district_options in Hd. rewrite elem_of_sorted, elem_of_unique in Hd.
  apply (getcol_text_elem _ _ _ d Hcol) in Hd as (r0 & Hr0 & Hd0).
  destruct (first_match_split (λ r', cell_eqb_str d (cell_at r' "district"))
              (rows df) r0) as (pre & r & post & Hrows & Hr & Hpre).
  { apply list_elem_of_In, Hr0. }
  { apply cell_at_text in Hd0. rewrite Hd0. simpl. apply bool_decide_eq_true. reflexivity. }
  exists pre, r, post. split; [exact Hrows|].
  assert (Hrd : cell_at r "district" = CStr d).
  { destruct (cell_at r "district") as [x|n|t]; simpl in Hr; try discriminate.
    apply bool_decide_eq_true in Hr. congruence. }
  assert (Hcard : tab3_deep_dive lib df d = tab3_card lib df r)
    by (apply (tab3_first_match lib df d pre r post); assumption).
  split; [apply cell_at_text, Hrd|]. split; [|split; [exact Hcard|]].
  - apply Forall_forall. intros r' Hr' Hd'.
    assert (Hf : In r' (List.filter (λ r', cell_eqb_str d (cell_at r' "district")) pre)).
    { apply filter_In. split; [apply list_elem_of_In, Hr'|].
      apply cell_at_text in Hd'. rewrite Hd'. simpl. apply bool_decide_eq_true.
      reflexivity. }
    rewrite Hpre in Hf. destruct Hf.
  - intros Hlib Hs Hm Ha Hscore n x Hn Hx Hx0.
    destruct (tab3_card_complete lib df r n x) as (color & Hcolor & Hc); try assumption.
    exists color. split; [exact Hcolor|]. rewrite Hcard, Hc, Hrd. reflexivity.
Qed.

Lemma district_pick_shows_first_match_witness :
  (getcol "district" twin_sample = Ok (map CStr ["Aurangabad"; "Aurangabad"])
   ∧ district_options ["Aurangabad"; "Aurangabad"] = ["Aurangabad"]
   ∧ progress_in_range sample_library)
  ∧ (∃ card, tab3_deep_dive sample_library twin_sample "Aurangabad" = Ok card
             ∧ card_state card = CStr "Bihar"
             ∧ card_mbu card = 500%Z
             ∧ card_score card = CInt 0
             ∧ card_score_style card = "#FF4B4B")
  ∧ ∃ pre (r : Row) post,
      rows twin_sample = (pre ++ r :: post)%list
      ∧ r !! "district" = Some (CStr "Aurangabad")
      ∧ Forall (λ r' : Row, r' !! "district" ≠ Some (CStr "Aurangabad")) pre
      ∧ tab3_deep_dive sample_library twin_sample "Aurangabad"
        = tab3_card sample_library twin_sample r
      ∧ (progress_in_range sample_library →
         "state" ∈ columns twin_sample → "future_mbu_demand" ∈ columns twin_sample →
         "assi" ∈ columns twin_sample →
         is_text (row_get twin_sample r "Preparedness_Index" (CInt 0)) = false →
         ∀ n x,
           py_int sample_library (cell_at r "future_mbu_demand") = Ok n →
           cell_float (cell_at r "assi") = Ok x → (0 <=? x)%float = true →
           ∃ color,
             card_color (row_get twin_sample r "Preparedness_Index" (CInt 0)) = Ok color
             ∧ tab3_deep_dive sample_library twin_sample "Aurangabad"
               = Ok (mkCard (CStr "Aurangabad") (cell_at r "state")
                       (row_get twin_sample r "Priority" (CStr "Normal"))
                       (priority_banner (row_get twin_sample r "Priority" (CStr "Normal")))
                       (row_get twin_sample r "Preparedness_Index" (CInt 0)) color n
                       (row_get twin_sample r "District_Playbook"
                          (CStr "Maintain Operations"))
                       (PyFloat.py_min (x / 5.0) 1.0))).
Proof.
  assert (Hcol : getcol "district" twin_sample
                 = Ok (map CStr ["Aurangabad"; "Aurangabad"]))
    by (vm_compute; reflexivity).
  assert (Hopt : district_options ["Aurangabad"; "Aurangabad"] = ["Aurangabad"])
    by (vm_compute; reflexivity).
  assert (Hlib : progress_in_range sample_library).
  { intros v H0 H1. simpl. rewrite H0, H1. reflexivity. }
  split; [split; [exact Hcol|split; [exact Hopt|exact Hlib]]|].
  split; [eexists; split; [vm_compute; reflexivity|repeat split]|].
  apply (district_pick_shows_first_match sample_library twin_sample
           ["Aurangabad"; "Aurangabad"] "Aurangabad" Hcol).
  rewrite Hopt. constructor.
Defined.

(** ** Errors *)

Lemma bind_Halt_inv {A B} (c : outcome A) (f : A → outcome B) l m :
  c ≫= f = Halt l m → c = Halt l m ∨ ∃ x, c = Ok x ∧ f x = Halt l m.
Proof. destruct c as [x| |]; simpl; [eauto|discriminate|intros [= -> ->]; auto]. Qed.

Lemma getcol_not_halt c df l m : getcol c df ≠ Halt l m.
Proof. unfold getcol. destruct (decide _); discriminate. Qed.

Lemma row_item_not_halt df (r : Row) c l m : row_item df r c ≠ Halt l m.
Proof. unfold row_item. destruct (decide _); discriminate. Qed.

Lemma px_columns_not_halt names df l m : px_columns names df ≠ Halt l m.
Proof.
  induction names as [|c names IH]; simpl; [discriminate|].
  destruct (decide _); [exact IH|discriminate].
Qed.

Lemma sort_values_not_halt c asc df l m : sort_values c asc df ≠ Halt l m.
Proof.
  unfold sort_values. intros H. apply bind_Halt_inv in H as [H|(? & _ & H)];
    [exact (getcol_not_halt _ _ _ _ H)|discriminate H].
Qed.


Lemma cell_float_not_halt c l m : cell_float c ≠ Halt l m.
Proof. destruct c; discriminate. Qed.



(** *** What each stage does to the columns *)


Lemma mask_select_length_le {A} (mask : list bool) (l : list A) :
  (length (mask_select mask l) ≤ length l)%nat.
Proof.
  revert l. induction mask as [|b mask IH]; intros [|x l]; simpl; try lia.
  specialize (IH l). destruct b; simpl; lia.
Qed.





(** *** The first missing column *)



Lemma first_missing_None cols df :
  first_missing cols df = None → Forall (λ c, c ∈ columns df) cols.
Proof.
  unfold first_missing. intros H. apply Forall_forall. intros c Hc.
  apply list_elem_of_In in Hc. pose proof (find_none _ _ H c Hc) as Hn.
  apply negb_false_iff, bool_decide_eq_true in Hn. exact Hn.
Qed.

Ltac column_case c df :=
  let Hin := fresh "Hin" in
  destruct (decide (c ∈ columns df)) as [Hin|Hin];
  [rewrite (bool_decide_eq_true_2 _ Hin), (getcol_present c df Hin)
  |rewrite (bool_decide_eq_false_2 _ Hin), (getcol_absent c df Hin)];
  cbn [negb mbind outcome_bind]; [|reflexivity].

(** The metrics of tab 1 read four columns in turn; the first that is
    missing ends the run. *)
Lemma tab1_metrics_outcome df :
  match first_missing ["Priority"; "assi"; "future_mbu_demand"; "security_status"] df with
  | Some c => tab1_metrics df = Raise (KeyError c)
  | None => ∃ m, tab1_metrics df = Ok m
  end.
Proof.
  unfold first_missing, tab1_metrics. cbn [List.find].
  column_case "Priority" df. column_case "assi" df.
  column_case "future_mbu_demand" df. column_case "security_status" df.
  eauto.
Qed.

(** *** Halts *)

Lemma tab1_metrics_not_halt df l m : tab1_metrics df ≠ Halt l m.
Proof.
  pose proof (tab1_metrics_outcome df) as H.
  destruct (first_missing _ df); [rewrite H|destruct H as [x ->]]; discriminate.
Qed.

Lemma tab1_charts_not_halt df l m : tab1_charts df ≠ Halt l m.
Proof.
  unfold tab1_charts. intros H.
  apply bind_Halt_inv in H as [H|(? & _ & H)]; [exact (px_columns_not_halt _ _ _ _ H)|].
  apply bind_Halt_inv in H as [H|(? & _ & H)]; [exact (px_columns_not_halt _ _ _ _ H)|].
  discriminate H.
Qed.

Lemma tab2_sentinel_not_halt df l m : tab2_sentinel df ≠ Halt l m.
Proof.
  unfold tab2_sentinel. intros H.
  apply bind_Halt_inv in H as [H|(? & _ & H)]; [exact (getcol_not_halt _ _ _ _ H)|].
  apply bind_Halt_inv in H as [H|(? & _ & H)]; [exact (sort_values_not_halt _ _ _ _ _ H)|].
  destruct (negb _); discriminate H.
Qed.

Lemma tab4_board_not_halt df l m : tab4_board df ≠ Halt l m.
Proof.
  unfold tab4_board. intros H.
  apply bind_Halt_inv in H as [H|(chart & _ & H)].
  { destruct (decide _); [|discriminate H].
    apply bind_Halt_inv in H as [H|(? & _ & H)];
      [exact (sort_values_not_halt _ _ _ _ _ H)|].
    apply bind_Halt_inv in H as [H|(? & _ & H)]; [exact (getcol_not_halt _ _ _ _ H)|].
    apply bind_Halt_inv in H as [H|(? & _ & H)]; [exact (getcol_not_halt _ _ _ _ H)|].
    discriminate H. }
  apply bind_Halt_inv in H as [H|(? & _ & H)]; [exact (getcol_not_halt _ _ _ _ H)|].
  apply bind_Halt_inv in H as [H|(? & _ & H)]; [|discriminate H].
  destruct (decide _); [exact (sort_values_not_halt _ _ _ _ _ H)|discriminate H].
Qed.

Lemma cell_lt_int_not_halt c k l m : cell_lt_int c k ≠ Halt l m.
Proof. destruct c; discriminate. Qed.

Lemma card_color_not_halt c l m : card_color c ≠ Halt l m.
Proof.
  unfold card_color. intros H.
  apply bind_Halt_inv in H as [H|(b & _ & H)]; [exact (cell_lt_int_not_halt _ _ _ _ H)|].
  destruct b; [discriminate H|].
  apply bind_Halt_inv in H as [H|(b & _ & H)]; [exact (cell_lt_int_not_halt _ _ _ _ H)|].
  destruct b; discriminate H.
Qed.

Lemma py_int_not_halt lib c l m : py_int lib c ≠ Halt l m.
Proof.
  destruct c as [x|n|s]; simpl; [|discriminate|destruct (int_str lib s); discriminate].
  unfold float_trunc. destruct (Prim2SF x); discriminate.
Qed.

Lemma tab3_card_not_halt lib df (r : Row) l m : tab3_card lib df r ≠ Halt l m.
Proof.
  unfold tab3_card, card_score_color, progress_value, st_progress. intros H.
  apply bind_Halt_inv in H as [H|(? & _ & H)]; [exact (row_item_not_halt _ _ _ _ _ H)|].
  apply bind_Halt_inv in H as [H|(? & _ & H)]; [exact (row_item_not_halt _ _ _ _ _ H)|].
  apply bind_Halt_inv in H as [H|([score color] & _ & H)].
  { apply bind_Halt_inv in H as [H|(? & _ & H)];
      [exact (card_color_not_halt _ _ _ H)|discriminate H]. }
  apply bind_Halt_inv in H as [H|(? & _ & H)]; [exact (row_item_not_halt _ _ _ _ _ H)|].
  apply bind_Halt_inv in H as [H|(? & _ & H)]; [exact (py_int_not_halt _ _ _ _ H)|].
  apply bind_Halt_inv in H as [H|(? & _ & H)]; [exact (row_item_not_halt _ _ _ _ _ H)|].
  apply bind_Halt_inv in H as [H|(v & _ & H)].
  { apply bind_Halt_inv in H as [H|(? & _ & H)];
      [exact (cell_float_not_halt _ _ _ H)|discriminate H]. }
  apply bind_Halt_inv in H as [H|(? & _ & H)]; [|discriminate H].
  destruct (progress_accepts lib v); discriminate H.
Qed.

(** Tab 3 halts with its warning, and only on a frame with no row. *)
Lemma tab3_Halt_inv lib df d l m :
  tab3_deep_dive lib df d = Halt l m →
  l = Warning ∧ m = no_district_message ∧ rows df = [].
Proof.
  unfold tab3_deep_dive. intros H.
  apply bind_Halt_inv in H as [H|(col & Hcol & H)]; [destruct (getcol_not_halt _ _ _ _ H)|].
  apply getcol_Ok in Hcol as [_ ->].
  destruct (bool_decide _) eqn:Hlen.
  - exfalso. apply bind_Halt_inv in H as [H|(? & _ & H)].
    { unfold sortable in H. destruct (_ && _); discriminate H. }
    apply bind_Halt_inv in H as [H|(? & _ & H)]; [exact (getcol_not_halt _ _ _ _ H)|].
    destruct (rows (select _ df)); [discriminate H|].
    exact (tab3_card_not_halt _ _ _ _ _ H).
  - injection H as <- <-. split; [reflexivity|]. split; [reflexivity|].
    apply bool_decide_eq_false in Hlen. rewrite length_map in Hlen.
    destruct (rows df); [reflexivity|simpl in Hlen; lia].
Qed.

Lemma nrows_0 df : nrows df = 0%nat → rows df = [].
Proof. unfold nrows. destruct (rows df); [reflexivity|discriminate]. Qed.

Lemma render_Halt_inv lib df msg d l m :
  render lib df msg d = Halt l m →
  l = Warning ∧ m = no_district_message ∧ rows df = [].
Proof.
  unfold render. intros H.
  apply bind_Halt_inv in H as [H|(? & _ & H)]; [destruct (tab1_metrics_not_halt _ _ _ H)|].
  apply bind_Halt_inv in H as [H|(df1 & Hc & H)]; [destruct (tab1_charts_not_halt _ _ _ H)|].
  apply bind_Halt_inv in H as [H|(? & _ & H)]; [destruct (tab2_sentinel_not_halt _ _ _ H)|].
  apply bind_Halt_inv in H as [H|(? & _ & H)].
  - apply tab3_Halt_inv in H as (-> & -> & Hrows). split; [reflexivity|].
    split; [reflexivity|]. apply nrows_0. rewrite <- (tab1_charts_nrows _ _ Hc).
    unfold nrows. rewrite Hrows. reflexivity.
  - apply bind_Halt_inv in H as [H|(? & _ & H)];
      [destruct (tab4_board_not_halt _ _ _ H)|discriminate H].
Qed.

(** *** The stages of a run *)




(** *** The tabs on a page *)



(** The columns of the frame the tabs read, after line 138. *)
Lemma tab1_charts_columns df df1 c :
  tab1_charts df = Ok df1 → c ≠ "district_type" →
  c ∈ columns df1 ↔ c ∈ columns df.
Proof.
  intros H Hc. apply tab1_charts_Ok_inv in H as [[_ ->]|[Hout ->]]; [reflexivity|].
  simpl. rewrite decide_False by assumption.
  rewrite elem_of_app, list_elem_of_singleton. tauto.
Qed.

Lemma tab3_Ok_inv lib df d card :
  tab3_deep_dive lib df d = Ok card →
  ∃ r : Row, r ∈ rows df ∧ tab3_card lib df r = Ok card.
Proof.
  unfold tab3_deep_dive. intros H.
  apply bind_Ok_inv in H as (col & _ & H).
  destruct (bool_decide _); [|discriminate H].
  apply bind_Ok_inv in H as (? & _ & H).
  apply bind_Ok_inv in H as (district & _ & H).
  destruct (rows (select _ df)) as [|r rs] eqn:Hsel; [discriminate H|].
  exists r. split; [|exact H].
  assert (Hin : r ∈ rows (select (map (cell_eqb_str d) district) df))
    by (rewrite Hsel; constructor).
  clear -Hin. simpl in Hin. revert Hin. generalize (map (cell_eqb_str d) district).
  induction (rows df) as [|r0 l IH]; intros [|b mask] Hin; simpl in Hin;
    try (inversion Hin; fail).
  destruct b.
  - apply elem_of_cons in Hin as [->|Hin]; [constructor|]. constructor. eauto.
  - constructor. eauto.
Qed.

Lemma tab3_card_Ok_inv lib df (r : Row) card :
  tab3_card lib df r = Ok card →
  card_priority card = row_get df r "Priority" (CStr "Normal")
  ∧ card_banner card = priority_banner (card_priority card)
  ∧ card_score card = row_get df r "Preparedness_Index" (CInt 0)
  ∧ card_color (card_score card) = Ok (card_score_style card)
  ∧ card_order card = row_get df r "District_Playbook" (CStr "Maintain Operations").
Proof.
  unfold tab3_card, card_score_color. intros H.
  apply bind_Ok_inv in H as (? & _ & H).
  apply bind_Ok_inv in H as (? & _ & H).
  apply bind_Ok_inv in H as ([score color] & Hsc & H).
  apply bind_Ok_inv in Hsc as (color' & Hcolor & Hsc). injection Hsc as <- <-.
  apply bind_Ok_inv in H as (? & _ & H).
  apply bind_Ok_inv in H as (? & _ & H).
  apply bind_Ok_inv in H as (? & _ & H).
  apply bind_Ok_inv in H as (? & _ & H).
  apply bind_Ok_inv in H as (? & _ & H).
  injection H as <-. cbn. auto.
Qed.


(** *** A column added to a frame *)

Lemma mask_select_fmap {A B} (f : A → B) (mask : list bool) (l : list A) :
  mask_select mask (map f l) = map f (mask_select mask l).
Proof.
  revert l. induction mask as [|b mask IH]; intros [|x l]; simpl; try reflexivity.
  destruct b; simpl; rewrite IH; reflexivity.
Qed.

Lemma setcol_scalar_rows c v df :
  rows (setcol_scalar c v df) = map (λ r : Row, <[c := v]> r) (rows df).
Proof.
  unfold setcol_scalar, setcol, nrows. simpl.
  induction (rows df) as [|r rs IH]; simpl; [reflexivity|]. rewrite IH. reflexivity.
Qed.

Lemma setcol_scalar_columns c v df c' :
  c ∉ columns df → c' ≠ c →
  c' ∈ columns (setcol_scalar c v df) ↔ c' ∈ columns df.
Proof.
  intros Hout Hne. simpl. rewrite decide_False by assumption.
  rewrite elem_of_app, list_elem_of_singleton. tauto.
Qed.

(** A column added to a frame changes no reading of another column. *)
Lemma row_item_added c v df (r : Row) c' :
  c ∉ columns df → c' ≠ c →
  row_item (setcol_scalar c v df) (<[c := v]> r) c' = row_item df r c'.
Proof.
  intros Hout Hne. unfold row_item, cell_at.
  rewrite lookup_insert_ne by congruence.
  destruct (decide (c' ∈ columns df)) as [Hin|Hin].
  - rewrite decide_True by (apply setcol_scalar_columns; assumption). reflexivity.
  - rewrite decide_False by (rewrite setcol_scalar_columns; assumption). reflexivity.
Qed.

Lemma row_get_added c v df (r : Row) c' dflt :
  c ∉ columns df → c' ≠ c →
  row_get (setcol_scalar c v df) (<[c := v]> r) c' dflt = row_get df r c' dflt.
Proof.
  intros Hout Hne. unfold row_get, cell_at.
  rewrite lookup_insert_ne by congruence.
  destruct (decide (c' ∈ columns df)) as [Hin|Hin].
  - rewrite decide_True by (apply setcol_scalar_columns; assumption). reflexivity.
  - rewrite decide_False by (rewrite setcol_scalar_columns; assumption). reflexivity.
Qed.

(** Tab 3 on a frame with one more column, when the card of every row is
    the same with and without it. *)
Lemma tab3_added_column lib df d c v :
  c ≠ "district" → c ∉ columns df →
  (∀ r : Row, tab3_card lib (setcol_scalar c v df) (<[c := v]> r) = tab3_card lib df r) →
  tab3_deep_dive lib df d = tab3_deep_dive lib (setcol_scalar c v df) d.
Proof.
  intros Hne Hout Hcard. unfold tab3_deep_dive.
  assert (Hcol : getcol "district" (setcol_scalar c v df) = getcol "district" df)
    by (apply getcol_setcol_ne; [congruence|apply length_replicate]).
  rewrite !Hcol.
  destruct (getcol "district" df) as [col| |]; [|reflexivity..].
  cbn [mbind outcome_bind]. destruct (bool_decide _); [|reflexivity].
  destruct (sortable col); [|reflexivity..]. cbn [mbind outcome_bind].
  unfold select. cbn [rows]. rewrite setcol_scalar_rows, mask_select_fmap.
  destruct (mask_select _ (rows df)) as [|r rs]; [reflexivity|]. simpl.
  symmetry. apply Hcard.
Qed.

Lemma row_get_default c v df (r : Row) :
  c ∉ columns df →
  row_get (setcol_scalar c v df) (<[c := v]> r) c v = row_get df r c v.
Proof.
  intros Hout. rewrite (row_get_absent df r c) by assumption.
  unfold row_get, cell_at. rewrite lookup_insert_eq. destruct (decide _); reflexivity.
Qed.

(** The card reads a missing optional column as it reads a column that
    holds the default in every row. *)
Lemma tab3_card_default_priority lib df (r : Row) :
  "Priority" ∉ columns df →
  tab3_card lib (setcol_scalar "Priority" (CStr "Normal") df)
    (<["Priority" := CStr "Normal"]> r)
  = tab3_card lib df r.
Proof.
  intros Hout. unfold tab3_card, card_score_color.
  rewrite !row_item_added by (assumption || discriminate).
  rewrite (row_get_added "Priority" _ df r "Preparedness_Index"),
    (row_get_added "Priority" _ df r "District_Playbook")
    by (assumption || discriminate).
  rewrite row_get_default by assumption. reflexivity.
Qed.









(** ** The default priority and the empty view *)

(** The [Priority] column is read in two ways.  The metrics of tab 1 (line
    113) index the frame: without the column the run ends there with
    [KeyError], so that the default of line 169 is never used in a run.  The
    district card of tab 3 (line 169) reads the column with a default: on its
    own it treats a frame without the column exactly as the frame with a
    [Priority] column that says "Normal" in every row, and a card it shows
    has the priority "Normal" under the green banner. *)
Theorem priority_read_two_ways (lib : library) (df : DataFrame) (msg : sidebar_msg)
    (d : string) :
  "Priority" ∉ columns df →
  render lib df msg d = Raise (KeyError "Priority")
  ∧ tab3_deep_dive lib df d
    = tab3_deep_dive lib (setcol_scalar "Priority" (CStr "Normal") df) d
  ∧ (∀ card, tab3_deep_dive lib df d = Ok card →
             card_priority card = CStr "Normal" ∧ card_banner card = SuccessBanner).
Proof.
  intros Hout. split; [|split].
  - unfold render, tab1_metrics. rewrite (getcol_absent "Priority") by assumption.
    reflexivity.
  - apply tab3_added_column; [discriminate|exact Hout|].
    intros r. apply tab3_card_default_priority, Hout.
  - intros card H. apply tab3_Ok_inv in H as (r & _ & H).
    apply tab3_card_Ok_inv in H as (Hp & Hb & _).
    rewrite (row_get_absent _ _ _ _ Hout) in Hp. rewrite Hp in Hb.
    split; [exact Hp|exact Hb].
Qed.

Lemma priority_read_two_ways_witness :
  ("Priority" ∉ columns (drop_column "Priority" full_sample))
  ∧ (∃ card, tab3_deep_dive sample_library (drop_column "Priority" full_sample) "Idukki"
             = Ok card
             ∧ card_priority card = CStr "Normal")
  ∧ render sample_library (drop_column "Priority" full_sample) InfoIncreaseLoad "Idukki"
    = Raise (KeyError "Priority")
  ∧ tab3_deep_dive sample_library (drop_column "Priority" full_sample) "Idukki"
    = tab3_deep_dive sample_library
        (setcol_scalar "Priority" (CStr "Normal") (drop_column "Priority" full_sample))
        "Idukki"
  ∧ (∀ card, tab3_deep_dive sample_library (drop_column "Priority" full_sample) "Idukki"
             = Ok card →
             card_priority card = CStr "Normal" ∧ card_banner card = SuccessBanner).
Proof.
  assert (Hno : "Priority" ∉ columns (drop_column "Priority" full_sample))
    by column_absent.
  split; [exact Hno|].
  split; [eexists; split; vm_compute; reflexivity|].
  exact (priority_read_two_ways sample_library (drop_column "Priority" full_sample)
           InfoIncreaseLoad "Idukki" Hno).
Defined.

(** A view with no row halts the run in tab 3 with the warning "No districts
    found.", once tab 1 has passed: no page is produced and tab 4 is not
    computed, whatever it would do on that frame.  The tabs halt in no other
    way. *)
Theorem no_district_halts (lib : library) (df df1 : DataFrame) (m : metrics)
    (msg : sidebar_msg) (d : string) :
  tab1_metrics df = Ok m → tab1_charts df = Ok df1 →
  (rows df = [] → render lib df msg d = Halt Warning no_district_message)
  ∧ (∀ lvl message, render lib df msg d = Halt lvl message →
       lvl = Warning ∧ message = no_district_message ∧ rows df = []).
Proof.
  intros Hm Hc. split; [|intros lvl message; apply render_Halt_inv].
  intros Hrows. unfold render. rewrite Hm, Hc. cbn [mbind outcome_bind].
  assert (Hrows1 : rows df1 = []).
  { apply nrows_0. rewrite (tab1_charts_nrows _ _ Hc). unfold nrows. rewrite Hrows.
    reflexivity. }
  assert (Hstatus : "security_status" ∈ columns df1
                    ∧ "assi" ∈ columns df1 ∧ "district" ∈ columns df1).
  { pose proof (tab1_metrics_outcome df) as Ho.
    destruct (first_missing _ df) eqn:Hfirst; [rewrite Ho in Hm; discriminate Hm|].
    apply first_missing_None in Hfirst. rewrite Forall_forall in Hfirst.
    split; [|split]; (apply (tab1_charts_columns df df1); [exact Hc|discriminate|]).
    - apply Hfirst. column_present.
    - apply Hfirst. column_present.
    - unfold tab1_charts in Hc. apply bind_Ok_inv in Hc as ([] & Hpx & _).
      clear -Hpx. simpl in Hpx.
      repeat (destruct (decide _) as [?|?] in Hpx; [|discriminate Hpx]).
      assumption. }
  destruct Hstatus as (Hs & Ha & Hd).
  assert (H2 : tab2_sentinel df1 = Ok None).
  { unfold tab2_sentinel, sort_values.
    rewrite (getcol_present _ _ Hs). cbn [mbind outcome_bind].
    rewrite (getcol_present "assi") by exact Ha. cbn [mbind outcome_bind body].
    assert (Hempty : ∀ mask, empty (select mask df1) = true).
    { intros mask. unfold empty, select. cbn [rows columns]. rewrite Hrows1.
      assert (Hnil : mask_select mask ([] : list Row) = []) by (destruct mask; reflexivity).
      rewrite Hnil, (bool_decide_eq_true_2 ([] = [])) by reflexivity.
      apply orb_true_r. }
    rewrite Hempty. reflexivity. }
  rewrite H2. cbn [mbind outcome_bind].
  unfold tab3_deep_dive. rewrite (getcol_present _ _ Hd), Hrows1. reflexivity.
Qed.

Lemma no_district_halts_witness :
  (∃ m, tab1_metrics headless_sample = Ok m)
  ∧ (∃ df1, tab1_charts headless_sample = Ok df1
            ∧ tab4_board df1 = Raise (KeyError "state"))
  ∧ app sample_library (Some empty_sample) default_widgets
    = Halt Warning no_district_message
  ∧ render sample_library headless_sample InfoIncreaseLoad "Idukki"
    = Halt Warning no_district_message
  ∧ (∀ lvl message,
       render sample_library headless_sample InfoIncreaseLoad "Idukki"
       = Halt lvl message →
       lvl = Warning ∧ message = no_district_message ∧ rows headless_sample = []).
Proof.
  split; [eexists; vm_compute; reflexivity|].
  split; [eexists; split; vm_compute; reflexivity|].
  split; [vm_compute; reflexivity|].
  destruct (no_district_halts sample_library headless_sample _ _ InfoIncreaseLoad
              "Idukki" eq_refl eq_refl) as [Hhalt Honly].
  split; [exact (Hhalt eq_refl)|exact Honly].
Defined.
